(** * Task helper utilities: a shallow embedding of
      [frontend/src/utils/taskHelpers.ts]

    The module is a set of small JavaScript functions over loosely typed
    records ([any]).  The embedding keeps what the code depends on:

    - JavaScript values as the data an API payload deserialises to
      ([undefined], [null], booleans, numbers, strings, plain objects and
      arrays); objects and arrays live in a store and are handled through
      references, so that object identity, sharing and the shallow copy of
      the spread operator are visible;
    - truthiness, [||], [?.], [===] and property reads as JavaScript defines
      them, a property read on [undefined] or [null] raising [TypeError];
    - abrupt completion as an explicit result type, so that "never raises"
      is a statement about the functions and not an artefact of the model. *)

From Stdlib Require Import ZArith.
From stdpp Require Import base option list strings gmap pretty.

Open Scope string_scope.
Open Scope list_scope.

(** ** Values and the store *)

Module JS.

(** A JavaScript number, as far as the module can tell numbers apart: it
    only tests them for truthiness, and [0] (either sign) and [NaN] are the
    falsy ones. *)
Inductive number : Type :=
  | NaN
  | Num (z : Z).

(** Locations of the store; a location is the identity of an object. *)
Abbreviation loc := nat (only parsing).

(** A JavaScript string is a sequence of UTF-16 code units.  The model
    has the strings whose code units are below 256, one [ascii] for each
    code unit (its number, as in Latin-1); the field names and string
    literals of the module are of that kind. *)
Inductive value : Type :=
  | VUndefined
  | VNull
  | VBool (b : bool)
  | VNum (n : number)
  | VStr (s : string)
  | VRef (l : loc).

(** What a location holds: a plain object (its own enumerable data
    properties) or an array (its elements, dense). *)
Inductive cell : Type :=
  | CObj (props : gmap string value)
  | CArr (elems : list value).

(** The store only ever grows: the module never assigns to a property of an
    existing object, it builds new objects.  Allocation appends. *)
Abbreviation heap := (list cell) (only parsing).

Definition alloc (h : heap) (c : cell) : loc * heap := (List.length h, h ++ [c]).

Inductive error : Type :=
  | TypeError.

(** Completion of an evaluation: a value, or a raised exception. *)
Inductive completion (A : Type) : Type :=
  | Normal (a : A)
  | Throw (e : error).
Arguments Normal {A} a.
Arguments Throw {A} e.

#[global] Instance completion_ret : MRet completion := λ A a, Normal a.
#[global] Instance completion_bind : MBind completion := λ A B k c,
  match c with
  | Normal a => k a
  | Throw e => Throw e
  end.

#[global] Instance number_eq_dec : EqDecision number.
Proof. solve_decision. Defined.
#[global] Instance value_eq_dec : EqDecision value.
Proof. solve_decision. Defined.
#[global] Instance error_eq_dec : EqDecision error.
Proof. solve_decision. Defined.

(** [ToBoolean]. *)
Definition truthy (v : value) : bool :=
  match v with
  | VUndefined | VNull => false
  | VBool b => b
  | VNum NaN => false
  | VNum (Num z) => negb (z =? 0)%Z
  | VStr s => negb (String.eqb s "")
  | VRef _ => true
  end.

Definition nullish (v : value) : bool :=
  match v with
  | VUndefined | VNull => true
  | _ => false
  end.

(** [v === "..."]: strict equality with a string literal. *)
Definition strict_eq_str (v : value) (lit : string) : bool :=
  match v with
  | VStr s => String.eqb s lit
  | _ => false
  end.

(** The array index a property key denotes, if it is one below [n]: the
    key is the canonical decimal spelling of the index. *)
Definition index_of_key (k : string) (n : nat) : option nat :=
  head (filter (λ i, pretty i = k) (seq 0 n)).

(** The code units of a string, each as a string of length one: what
    indexing a string and spreading it give. *)
Definition chars (s : string) : list value :=
  (λ c, VStr (String c EmptyString)) <$> String.list_ascii_of_string s.

(** The elements of an array (the characters of a string) as properties:
    element [i] under the key that spells [i]. *)
Definition indexed (vs : list value) : gmap string value :=
  kmap pretty (map_seq 0 vs : gmap nat value).

Definition elem_prop (vs : list value) (k : string) : value :=
  if String.eqb k "length" then VNum (Num (Z.of_nat (List.length vs)))
  else match index_of_key k (List.length vs) with
       | Some i => default VUndefined (vs !! i)
       | None => VUndefined
       end.

(** The value of the data property [k] of [v].  Methods inherited from the
    built-in prototypes are not data and are outside the universe of
    [value]; none of the names the module reads is one of them. *)
Definition prop (h : heap) (v : value) (k : string) : value :=
  match v with
  | VRef l =>
      match h !! l with
      | Some (CObj m) => default VUndefined (m !! k)
      | Some (CArr vs) => elem_prop vs k
      | None => VUndefined
      end
  | VStr s => elem_prop (chars s) k
  | _ => VUndefined
  end.

(** [v.k]: raises on [undefined] and [null]. *)
Definition getProp (h : heap) (v : value) (k : string) : completion value :=
  if nullish v then Throw TypeError else Normal (prop h v k).

(** [v?.k]. *)
Definition getPropOpt (h : heap) (v : value) (k : string) : completion value :=
  if nullish v then Normal VUndefined else getProp h v k.

(** [a || b]; [b] is only evaluated when [a] is falsy. *)
Definition or_else (a b : completion value) : completion value :=
  v ← a; if truthy v then Normal v else b.

(** The own enumerable properties the spread [{...v}] copies. *)
Definition ownEnumerable (h : heap) (v : value) : gmap string value :=
  match v with
  | VRef l =>
      match h !! l with
      | Some (CObj m) => m
      | Some (CArr vs) => indexed vs
      | None => ∅
      end
  | VStr s => indexed (chars s)
  | _ => ∅
  end.

(** [Array.isArray]. *)
Definition isArray (h : heap) (v : value) : option (list value) :=
  match v with
  | VRef l =>
      match h !! l with
      | Some (CArr vs) => Some vs
      | _ => None
      end
  | _ => None
  end.

(** *** [new Date(v)]

    The constructor converts an object argument to a primitive first
    (ECMAScript [ToPrimitive], then [OrdinaryToPrimitive]): it looks up
    [valueOf] and [toString] on the object and calls those that are
    callable.  In a plain object an own data property of that name shadows
    the inherited method, and no data value is callable; the inherited
    [valueOf] returns the object itself, so the conversion succeeds exactly
    when the inherited [toString] is still visible.  An array is joined,
    which converts each element other than [undefined] and [null] to a
    string the same way.  When no conversion is left to try the constructor
    raises [TypeError].

    [toStringThrows n h v] tells whether converting [v] raises, looking
    through at most [n] levels of nested arrays.  Engines cut an array
    that contains itself short instead of descending for ever; going
    round such a cycle again meets no new element, so a bound that covers
    every array of the store gives the same answer. *)
Fixpoint toStringThrows (fuel : nat) (h : heap) (v : value) {struct fuel} : bool :=
  match v with
  | VRef l =>
      match h !! l with
      | Some (CObj m) => bool_decide (is_Some (m !! "toString"))
      | Some (CArr vs) =>
          match fuel with
          | O => false
          | S n => existsb (toStringThrows n h) vs
          end
      | None => false
      end
  | _ => false
  end.

(** A [Date] object, named by the argument it was built from; the time
    value (a floating-point number obtained by parsing) is not
    interpreted. *)
Inductive date : Type :=
  | MkDate (src : value).

(** Nesting of arrays in a store is bounded by the number of its cells. *)
Definition Date_new (h : heap) (v : value) : completion date :=
  if toStringThrows (List.length h) h v then Throw TypeError
  else Normal (MkDate v).

End JS.

Export JS.

Infix "<||>" := or_else (at level 50, left associativity).

(** ** The module *)

(** [getFileId]
<<
  if (!item) return null;
  return (item.file_id || item.permit_file_id ||
          item.source?.permit_file_id || item.source?.file_id || null);
>> *)
Definition getFileId (h : heap) (item : value) : completion value :=
  if negb (truthy item) then Normal VNull
  else
    getProp h item "file_id"
    <||> getProp h item "permit_file_id"
    <||> (src ← getProp h item "source" ; getPropOpt h src "permit_file_id")
    <||> (src ← getProp h item "source" ; getPropOpt h src "file_id")
    <||> Normal VNull.

(** [isStandaloneTask]
<<
  if (!task) return false;
  if (task.tracking_mode === 'STANDALONE') return true;
  if (task.tracking_mode === 'FILE_BASED') return false;
  return !getFileId(task);
>> *)
Definition isStandaloneTask (h : heap) (task : value) : completion bool :=
  if negb (truthy task) then Normal false
  else
    tm ← getProp h task "tracking_mode";
    if strict_eq_str tm "STANDALONE" then Normal true
    else
      tm ← getProp h task "tracking_mode";
      if strict_eq_str tm "FILE_BASED" then Normal false
      else
        fileId ← getFileId h task;
        Normal (negb (truthy fileId)).

(** The type [TrackingMode = 'FILE_BASED' | 'STANDALONE'] and the strings
    its members are at run time. *)
Inductive TrackingMode : Type :=
  | FILE_BASED
  | STANDALONE.

Definition TrackingMode_value (m : TrackingMode) : value :=
  match m with
  | FILE_BASED => VStr "FILE_BASED"
  | STANDALONE => VStr "STANDALONE"
  end.

(** [getTrackingMode]; the cast [as TrackingMode] is erased at run time, so
    the function returns whatever truthy value the field holds.
<<
  if (!task) return 'STANDALONE';
  if (task.tracking_mode) { return task.tracking_mode as TrackingMode; }
  return getFileId(task) ? 'FILE_BASED' : 'STANDALONE';
>> *)
Definition getTrackingMode (h : heap) (task : value) : completion value :=
  if negb (truthy task) then Normal (TrackingMode_value STANDALONE)
  else
    tm ← getProp h task "tracking_mode";
    if truthy tm then getProp h task "tracking_mode"
    else
      fileId ← getFileId h task;
      Normal (if truthy fileId then TrackingMode_value FILE_BASED
              else TrackingMode_value STANDALONE).

(** [normalizeTask]; the object literal allocates a new object.
<<
  if (!task) return task;
  const fileId = getFileId(task);
  const trackingMode = getTrackingMode(task);
  return { ...task, file_id: fileId, tracking_mode: trackingMode,
           assigned_to: task.assigned_to || task.assignment || task.employee_code };
>> *)
Definition normalizeTask (h : heap) (task : value) : completion (value * heap) :=
  if negb (truthy task) then Normal (task, h)
  else
    fileId ← getFileId h task;
    trackingMode ← getTrackingMode h task;
    assigned ← getProp h task "assigned_to"
               <||> getProp h task "assignment"
               <||> getProp h task "employee_code";
    let '(l, h') :=
      alloc h (CObj (<["assigned_to" := assigned]>
                    (<["tracking_mode" := trackingMode]>
                    (<["file_id" := fileId]> (ownEnumerable h task))))) in
    Normal (VRef l, h').

(** [tasks.map(normalizeTask)]: the calls run in order of the elements,
    each in the store the previous ones left. *)
Fixpoint map_normalizeTask (h : heap) (tasks : list value)
    : completion (list value * heap) :=
  match tasks with
  | [] => Normal ([], h)
  | t :: ts =>
      '(r, h1) ← normalizeTask h t;
      '(rs, h2) ← map_normalizeTask h1 ts;
      Normal (r :: rs, h2)
  end.

(** [normalizeTasks]
<<
  if (!Array.isArray(tasks)) return [];
  return tasks.map(normalizeTask);
>> *)
Definition normalizeTasks (h : heap) (tasks : value) : completion (value * heap) :=
  match isArray h tasks with
  | None => let '(l, h') := alloc h (CArr []) in Normal (VRef l, h')
  | Some ts =>
      '(rs, h1) ← map_normalizeTask h ts;
      let '(l, h') := alloc h1 (CArr rs) in
      Normal (VRef l, h')
  end.

(** [getFileDisplayName]
<<
  const fileId = getFileId(item);
  if (!fileId) return 'Standalone Task';
  if (item.file_name) return item.file_name;
  if (item.original_filename) return item.original_filename;
  return fileId;
>> *)
Definition getFileDisplayName (h : heap) (item : value) : completion value :=
  fileId ← getFileId h item;
  if negb (truthy fileId) then Normal (VStr "Standalone Task")
  else
    name ← getProp h item "file_name";
    if truthy name then getProp h item "file_name"
    else
      orig ← getProp h item "original_filename";
      if truthy orig then getProp h item "original_filename"
      else Normal fileId.

(** The interface [AssignmentInfo]. *)
Record AssignmentInfo : Type := {
  assignedTo : value;
  assignedToName : value;
  assignedAt : date;
  stage : value
}.

(** [getAssignmentInfo]
<<
  if (!file) return null;
  if (file.current_assignment) {
    return { assignedTo: file.current_assignment.employee_code,
             assignedToName: file.current_assignment.employee_name,
             assignedAt: new Date(file.current_assignment.assigned_at),
             stage: file.current_assignment.stage };
  }
  if (file.assignment) {
    return { assignedTo: file.assignment.assigned_to,
             assignedToName: undefined,
             assignedAt: new Date(file.assignment.assigned_at),
             stage: file.assignment.assigned_for_stage };
  }
  return null;
>> *)
Definition getAssignmentInfo (h : heap) (file : value)
    : completion (option AssignmentInfo) :=
  if negb (truthy file) then Normal None
  else
    cur ← getProp h file "current_assignment";
    if truthy cur then
      code ← getProp h cur "employee_code";
      name ← getProp h cur "employee_name";
      at_ ← getProp h cur "assigned_at";
      d ← Date_new h at_;
      st ← getProp h cur "stage";
      Normal (Some {| assignedTo := code; assignedToName := name;
                      assignedAt := d; stage := st |})
    else
      old ← getProp h file "assignment";
      if truthy old then
        code ← getProp h old "assigned_to";
        at_ ← getProp h old "assigned_at";
        d ← Date_new h at_;
        st ← getProp h old "assigned_for_stage";
        Normal (Some {| assignedTo := code; assignedToName := VUndefined;
                        assignedAt := d; stage := st |})
      else Normal None.

(** [getAssignedTo]
<<
  if (!task) return null;
  return (task.assigned_to || task.assignment || task.employee_code ||
          task.assigned_to_employee_code || null);
>> *)
Definition getAssignedTo (h : heap) (task : value) : completion value :=
  if negb (truthy task) then Normal VNull
  else
    getProp h task "assigned_to"
    <||> getProp h task "assignment"
    <||> getProp h task "employee_code"
    <||> getProp h task "assigned_to_employee_code"
    <||> Normal VNull.

(** [formatTrackingMode]: [mode === 'FILE_BASED' ? 'File-Based' : 'Standalone'] *)
Definition formatTrackingMode (mode : value) : completion value :=
  Normal (if strict_eq_str mode "FILE_BASED" then VStr "File-Based"
          else VStr "Standalone").

(** [getTrackingModeBadgeVariant]: [mode === 'FILE_BASED' ? 'default' : 'secondary'] *)
Definition getTrackingModeBadgeVariant (mode : value) : completion value :=
  Normal (if strict_eq_str mode "FILE_BASED" then VStr "default"
          else VStr "secondary").

(** ** Values the functions select

    Closed forms of the results on a truthy argument, used to state the
    lemmas below; each is proved equal to what the function returns. *)

(** The value the chain of [getFileId] selects. *)
Definition fileIdValue (h : heap) (item : value) : value :=
  let src := prop h item "source" in
  if truthy (prop h item "file_id") then prop h item "file_id"
  else if truthy (prop h item "permit_file_id") then prop h item "permit_file_id"
  else if truthy (prop h src "permit_file_id") then prop h src "permit_file_id"
  else if truthy (prop h src "file_id") then prop h src "file_id"
  else VNull.

(** The value [getTrackingMode] returns. *)
Definition trackingModeValue (h : heap) (task : value) : value :=
  if truthy (prop h task "tracking_mode") then prop h task "tracking_mode"
  else if truthy (fileIdValue h task) then TrackingMode_value FILE_BASED
  else TrackingMode_value STANDALONE.

(** The value of the chain [task.assigned_to || task.assignment ||
    task.employee_code] in [normalizeTask]. *)
Definition assignedValue (h : heap) (task : value) : value :=
  if truthy (prop h task "assigned_to") then prop h task "assigned_to"
  else if truthy (prop h task "assignment") then prop h task "assignment"
  else prop h task "employee_code".

(** The properties of the object [normalizeTask] builds. *)
Definition normalizedProps (h : heap) (task : value) : gmap string value :=
  <["assigned_to" := assignedValue h task]>
  (<["tracking_mode" := trackingModeValue h task]>
  (<["file_id" := fileIdValue h task]> (ownEnumerable h task))).

(** The value [getAssignmentInfo] hands to [new Date], if it gets that
    far: the [assigned_at] of the assignment object it selects. *)
Definition assignedAtOf (h : heap) (file : value) : option value :=
  if negb (truthy file) then None
  else if truthy (prop h file "current_assignment")
       then Some (prop h (prop h file "current_assignment") "assigned_at")
  else if truthy (prop h file "assignment")
       then Some (prop h (prop h file "assignment") "assigned_at")
  else None.

(** The three keys [normalizeTask] writes. *)
Definition overlay_keys : list string := ["file_id"; "tracking_mode"; "assigned_to"].

(** ** Example stores *)

(** A migrated record [{ file_id: "cur", permit_file_id: "leg", source }]
    (location 1) whose [source] (location 0) carries both nested
    fields. *)
Definition store_migrated : heap :=
  [ CObj {[ "file_id" := VStr "nested-cur"; "permit_file_id" := VStr "nested-leg" ]};
    CObj {[ "file_id" := VStr "cur"; "permit_file_id" := VStr "leg";
            "source" := VRef 0 ]} ].

(** [{ source: { file_id: "nested-cur", permit_file_id: "nested-leg" } }]
    at location 1. *)
Definition store_nested : heap :=
  [ CObj {[ "file_id" := VStr "nested-cur"; "permit_file_id" := VStr "nested-leg" ]};
    CObj {[ "source" := VRef 0 ]} ].

(** [{ tracking_mode: "BOGUS" }] at location 0. *)
Definition store_bogus_mode : heap :=
  [ CObj {[ "tracking_mode" := VStr "BOGUS" ]} ].

(** [{ assigned_to_employee_code: "E7" }] at location 0. *)
Definition store_employee_code : heap :=
  [ CObj {[ "assigned_to_employee_code" := VStr "E7" ]} ].

(** [{ current_assignment: { employee_code: "E1",
       assigned_at: { toString: 1 } } }] at location 2. *)
Definition store_bad_date : heap :=
  [ CObj {[ "toString" := VNum (Num 1) ]};
    CObj {[ "employee_code" := VStr "E1"; "assigned_at" := VRef 0 ]};
    CObj {[ "current_assignment" := VRef 1 ]} ].

(** The legacy shape of the specification's example, at location 1:
    [{ assignment: { assigned_to: "E1", assigned_at:
    "2024-01-01T00:00:00Z", assigned_for_stage: "review" } }]. *)
Definition store_legacy_assignment : heap :=
  [ CObj {[ "assigned_to" := VStr "E1";
            "assigned_at" := VStr "2024-01-01T00:00:00Z";
            "assigned_for_stage" := VStr "review" ]};
    CObj {[ "assignment" := VRef 0 ]} ].

(** Both shapes in one file, at location 2. *)
Definition store_both_assignments : heap :=
  [ CObj {[ "assigned_to" := VStr "E1";
            "assigned_at" := VStr "2024-01-01T00:00:00Z";
            "assigned_for_stage" := VStr "review" ]};
    CObj {[ "employee_code" := VStr "E2"; "employee_name" := VStr "Ada";
            "assigned_at" := VStr "2024-02-02T00:00:00Z";
            "stage" := VStr "qa" ]};
    CObj {[ "assignment" := VRef 0; "current_assignment" := VRef 1 ]} ].

(** The records of the specification's examples: [{ permit_file_id:
    "F1" }] at 0, [{}] at 1, [{ tracking_mode: "STANDALONE", file_id:
    "F2" }] at 2. *)
Definition store_examples : heap :=
  [ CObj {[ "permit_file_id" := VStr "F1" ]};
    CObj ∅;
    CObj {[ "tracking_mode" := VStr "STANDALONE"; "file_id" := VStr "F2" ]} ].

(** The value the chain of [getAssignedTo] selects. *)
Definition assignedToValue (h : heap) (task : value) : value :=
  if truthy (prop h task "assigned_to") then prop h task "assigned_to"
  else if truthy (prop h task "assignment") then prop h task "assignment"
  else if truthy (prop h task "employee_code") then prop h task "employee_code"
  else if truthy (prop h task "assigned_to_employee_code")
       then prop h task "assigned_to_employee_code"
  else VNull.

(** [live h v]: [v] is a primitive or a reference to an object of [h]. *)
Definition live (h : heap) (v : value) : bool :=
  match v with
  | VRef l => bool_decide (l < List.length h)%nat
  | _ => true
  end.

(** The members of [TrackingMode], as a test on run-time values. *)
Definition is_TrackingMode (v : value) : bool :=
  strict_eq_str v "FILE_BASED" || strict_eq_str v "STANDALONE".

(** The records of [store_examples] and, at location 3, the array
    [[a, null, a]] with [a] the record at location 0, twice. *)
Definition store_array : heap :=
  store_examples ++ [CArr [VRef 0; VNull; VRef 0]].

(** Closes [k ∉ overlay_keys] for a key given as a literal. *)
Ltac not_overlay :=
  unfold overlay_keys; rewrite !not_elem_of_cons;
  repeat split; (discriminate || apply not_elem_of_nil).

(** ** Reading properties *)

Section reads.
Implicit Types (h : heap) (v item task : value) (k : string).

Lemma truthy_not_nullish v : truthy v = true → nullish v = false.
Proof. by destruct v. Qed.

Lemma getProp_truthy h v k : truthy v = true → getProp h v k = Normal (prop h v k).
Proof. intros Hv. unfold getProp. by rewrite truthy_not_nullish. Qed.

Lemma getPropOpt_prop h v k : getPropOpt h v k = Normal (prop h v k).
Proof. by destruct v. Qed.

Lemma or_else_Normal (a : value) (b : completion value) :
  Normal a <||> b = if truthy a then Normal a else b.
Proof. reflexivity. Qed.

Lemma getFileId_truthy h item :
  truthy item = true → getFileId h item = Normal (fileIdValue h item).
Proof.
  intros Hi. unfold getFileId, fileIdValue. rewrite Hi. simpl negb. cbv iota.
  rewrite !getProp_truthy by done. cbn [mbind completion_bind].
  rewrite !getPropOpt_prop.
  repeat (rewrite or_else_Normal || case_match); congruence.
Qed.

Lemma getFileId_falsy h item : truthy item = false → getFileId h item = Normal VNull.
Proof. intros Hi. unfold getFileId. by rewrite Hi. Qed.

Lemma fileIdValue_falsy h item :
  truthy (fileIdValue h item) = false → fileIdValue h item = VNull.
Proof. unfold fileIdValue. repeat case_match; congruence. Qed.
End reads.

(** ** Own properties and property reads agree *)

Section own_properties.
Implicit Types (h : heap) (v : value) (k : string) (vs : list value).

Lemma index_of_key_Some k n i :
  index_of_key k n = Some i → k = pretty i ∧ (i < n)%nat.
Proof.
  unfold index_of_key. intros Hh. apply head_Some_elem_of in Hh.
  apply list_elem_of_filter in Hh as [Hk Hi]. apply elem_of_seq in Hi.
  split; [done | lia].
Qed.

Lemma index_of_key_None k n i :
  index_of_key k n = None → (i < n)%nat → pretty i ≠ k.
Proof.
  unfold index_of_key. intros Hh Hi Hk. apply head_None in Hh.
  apply (filter_nil_not_elem_of _ _ i Hh Hk), elem_of_seq. lia.
Qed.

Lemma indexed_lookup vs k :
  indexed vs !! k = i ← index_of_key k (List.length vs); vs !! i.
Proof.
  unfold indexed. destruct (index_of_key k (List.length vs)) as [i|] eqn:Hi; simpl.
  - apply index_of_key_Some in Hi as [-> _].
    rewrite lookup_kmap by apply _. by rewrite lookup_map_seq_0.
  - apply lookup_kmap_None; [apply _ |]. intros i ->.
    rewrite lookup_map_seq_0. apply lookup_ge_None.
    destruct (decide (i < List.length vs)%nat) as [Hlt|]; [| lia].
    by destruct (index_of_key_None _ _ _ Hi Hlt).
Qed.

Lemma elem_prop_indexed vs k :
  k ≠ "length" → elem_prop vs k = default VUndefined (indexed vs !! k).
Proof.
  intros Hk. unfold elem_prop. rewrite indexed_lookup.
  apply String.eqb_neq in Hk as ->.
  by destruct (index_of_key k (List.length vs)).
Qed.

(** Every data property other than [length] is an own enumerable one. *)
Lemma prop_ownEnumerable h v k :
  k ≠ "length" → prop h v k = default VUndefined (ownEnumerable h v !! k).
Proof.
  intros Hk. destruct v as [| | | | s | l]; simpl; try done.
  - by apply elem_prop_indexed.
  - destruct (h !! l) as [[m|vs]|]; try done. by apply elem_prop_indexed.
Qed.
End own_properties.

(** ** The store under allocation *)

Section store.
Implicit Types (h : heap) (v : value) (k : string) (c : cell).

Lemma alloc_fresh h c : h !! (alloc h c).1 = None.
Proof. unfold alloc. cbn [fst snd]. by apply lookup_ge_None. Qed.

Lemma alloc_new h c : (alloc h c).2 !! (alloc h c).1 = Some c.
Proof. unfold alloc. cbn [fst snd]. by rewrite lookup_app_r, Nat.sub_diag. Qed.

Lemma alloc_old h c l c' : h !! l = Some c' → (alloc h c).2 !! l = Some c'.
Proof.
  unfold alloc. cbn [fst snd]. intros Hl.
  by rewrite lookup_app_l by by eapply lookup_lt_Some.
Qed.

Lemma prop_alloc_new h (m : gmap string value) k :
  prop (h ++ [CObj m]) (VRef (List.length h)) k = default VUndefined (m !! k).
Proof. unfold prop. by rewrite lookup_app_r, Nat.sub_diag. Qed.

(** Reading through a reference that was live before the allocation. *)
Lemma prop_alloc_old h c l k :
  (l < List.length h)%nat → prop (h ++ [c]) (VRef l) k = prop h (VRef l) k.
Proof. intros Hl. unfold prop. by rewrite lookup_app_l. Qed.

Lemma prop_alloc_prim h c v k :
  (∀ l, v ≠ VRef l) → prop (h ++ [c]) v k = prop h v k.
Proof. intros Hv. destruct v; try done. by destruct (Hv l). Qed.

Lemma prop_dangling h l k : (List.length h ≤ l)%nat → prop h (VRef l) k = VUndefined.
Proof. intros Hl. unfold prop. by rewrite (proj2 (lookup_ge_None h l)). Qed.
End store.

(** ** What the functions return on a truthy argument *)


Section results.
Implicit Types (h : heap) (v item task : value) (k : string).

Lemma fileIdValue_falsy_inv h item :
  truthy (fileIdValue h item) = false →
  truthy (prop h item "file_id") = false ∧
  truthy (prop h item "permit_file_id") = false ∧
  truthy (prop h (prop h item "source") "permit_file_id") = false ∧
  truthy (prop h (prop h item "source") "file_id") = false.
Proof.
  unfold fileIdValue. cbv zeta.
  destruct (truthy (prop h item "file_id")) eqn:Ha; [congruence |].
  destruct (truthy (prop h item "permit_file_id")) eqn:Hb; [congruence |].
  destruct (truthy (prop h (prop h item "source") "permit_file_id")) eqn:Hc;
    [congruence |].
  destruct (truthy (prop h (prop h item "source") "file_id")) eqn:Hd;
    [congruence | done].
Qed.

Lemma fileIdValue_all_falsy h item :
  truthy (prop h item "file_id") = false →
  truthy (prop h item "permit_file_id") = false →
  truthy (prop h (prop h item "source") "permit_file_id") = false →
  truthy (prop h (prop h item "source") "file_id") = false →
  fileIdValue h item = VNull.
Proof. unfold fileIdValue. intros Ha Hb Hc Hd. cbv zeta. by rewrite Ha, Hb, Hc, Hd. Qed.

Lemma getTrackingMode_truthy h task :
  truthy task = true → getTrackingMode h task = Normal (trackingModeValue h task).
Proof.
  intros Ht. unfold getTrackingMode, trackingModeValue. rewrite Ht. simpl negb. cbv iota.
  rewrite !getProp_truthy, getFileId_truthy by done. cbn [mbind completion_bind].
  by repeat case_match.
Qed.

Lemma assigned_chain h task :
  truthy task = true →
  getProp h task "assigned_to" <||> getProp h task "assignment"
    <||> getProp h task "employee_code" = Normal (assignedValue h task).
Proof.
  intros Ht. unfold assignedValue. rewrite !getProp_truthy by done.
  repeat (rewrite or_else_Normal || case_match); congruence.
Qed.

Lemma normalizeTask_truthy h task :
  truthy task = true →
  normalizeTask h task =
    Normal (VRef (List.length h), h ++ [CObj (normalizedProps h task)]).
Proof.
  intros Ht. unfold normalizeTask. rewrite Ht. simpl negb. cbv iota.
  rewrite getFileId_truthy, getTrackingMode_truthy, assigned_chain by done.
  reflexivity.
Qed.

Lemma normalizeTask_falsy h task :
  truthy task = false → normalizeTask h task = Normal (task, h).
Proof. intros Ht. unfold normalizeTask. by rewrite Ht. Qed.

Lemma normalizedProps_other h task k :
  k ∉ overlay_keys → normalizedProps h task !! k = ownEnumerable h task !! k.
Proof.
  unfold overlay_keys, normalizedProps. intros Hk.
  apply not_elem_of_cons in Hk as [H1 Hk]. apply not_elem_of_cons in Hk as [H2 Hk].
  apply not_elem_of_cons in Hk as [H3 _].
  by rewrite !lookup_insert_ne by done.
Qed.
End results.

(** ** Identifier resolution *)

Section identifier.
  Implicit Types (h : heap) (item : value).

(** C9: in every record whose top-level [file_id] holds a truthy value,
    [getFileId] returns exactly that value, whatever the legacy and nested
    identifier fields hold. *)
Theorem getFileId_current_first h item :
  truthy item = true →
  truthy (prop h item "file_id") = true →
  getFileId h item = Normal (prop h item "file_id").
Proof.
  intros Hi Ha. rewrite getFileId_truthy by done.
  unfold fileIdValue. cbv zeta. by rewrite Ha.
Qed.

(** C2, as the code has it: with no truthy top-level identifier and both
    nested fields truthy, [getFileId] returns the nested legacy field
    [source.permit_file_id]; the chain probes it before
    [source.file_id]. *)
Theorem getFileId_nested_legacy_first h item :
  truthy item = true →
  truthy (prop h item "file_id") = false →
  truthy (prop h item "permit_file_id") = false →
  truthy (prop h (prop h item "source") "file_id") = true →
  truthy (prop h (prop h item "source") "permit_file_id") = true →
  getFileId h item = Normal (prop h (prop h item "source") "permit_file_id").
Proof.
  intros Hi Ha Hb _ Hc. rewrite getFileId_truthy by done.
  unfold fileIdValue. cbv zeta. by rewrite Ha, Hb, Hc.
Qed.
End identifier.

Lemma getFileId_current_first_witness :
  truthy (VRef 1) = true ∧
  truthy (prop store_migrated (VRef 1) "file_id") = true ∧
  getFileId store_migrated (VRef 1) = Normal (VStr "cur").
Proof.
  split; [reflexivity |]. split; [vm_compute; reflexivity |].
  exact (getFileId_current_first store_migrated (VRef 1) eq_refl eq_refl).
Defined.

(** The record [{ source: { file_id: "nested-cur", permit_file_id:
    "nested-leg" } }] meets the premises of C2, and [getFileId] does not
    return the nested current field. *)
Lemma getFileId_nested_current_first_fails :
  truthy (VRef 1) = true ∧
  truthy (prop store_nested (VRef 1) "file_id") = false ∧
  truthy (prop store_nested (VRef 1) "permit_file_id") = false ∧
  prop store_nested (prop store_nested (VRef 1) "source") "file_id" = VStr "nested-cur" ∧
  prop store_nested (prop store_nested (VRef 1) "source") "permit_file_id" = VStr "nested-leg" ∧
  getFileId store_nested (VRef 1) = Normal (VStr "nested-leg") ∧
  getFileId store_nested (VRef 1)
    ≠ Normal (prop store_nested (prop store_nested (VRef 1) "source") "file_id").
Proof. vm_compute. repeat split; try reflexivity. discriminate. Qed.

Lemma getFileId_nested_legacy_first_witness :
  truthy (VRef 1) = true ∧
  truthy (prop store_nested (VRef 1) "file_id") = false ∧
  truthy (prop store_nested (VRef 1) "permit_file_id") = false ∧
  truthy (prop store_nested (prop store_nested (VRef 1) "source") "file_id") = true ∧
  truthy (prop store_nested (prop store_nested (VRef 1) "source") "permit_file_id") = true ∧
  getFileId store_nested (VRef 1) = Normal (VStr "nested-leg").
Proof.
  repeat (split; [vm_compute; reflexivity |]).
  exact (getFileId_nested_legacy_first store_nested (VRef 1)
           eq_refl eq_refl eq_refl eq_refl eq_refl).
Defined.

(** ** Tracking mode *)

Section tracking_mode.
Implicit Types (h : heap) (task : value).

(** C10: on a falsy (absent) argument [isStandaloneTask] answers [false]
    while [getTrackingMode] answers ['STANDALONE']: the two disagree
    there. *)
Theorem absent_task_not_standalone h task :
  truthy task = false →
  isStandaloneTask h task = Normal false ∧
  getTrackingMode h task = Normal (VStr "STANDALONE").
Proof.
  intros Ht. unfold isStandaloneTask, getTrackingMode. by rewrite Ht.
Qed.

(** The parts of the tracking-mode contract the code keeps: an absent
    task is ['STANDALONE'], an explicit enum member is returned as it is,
    and a falsy [tracking_mode] leaves the decision to [getFileId]. *)
Lemma getTrackingMode_contract h task :
  (truthy task = false → getTrackingMode h task = Normal (VStr "STANDALONE")) ∧
  (truthy task = true →
   ∀ m, prop h task "tracking_mode" = TrackingMode_value m →
        getTrackingMode h task = Normal (TrackingMode_value m)) ∧
  (truthy task = true →
   truthy (prop h task "tracking_mode") = false →
   ∃ fileId, getFileId h task = Normal fileId ∧
     getTrackingMode h task =
       Normal (TrackingMode_value (if truthy fileId then FILE_BASED else STANDALONE))).
Proof.
  split; [| split].
  - intros Ht. unfold getTrackingMode. by rewrite Ht.
  - intros Ht m Hm. rewrite getTrackingMode_truthy by done.
    unfold trackingModeValue. rewrite Hm. by destruct m.
  - intros Ht Hm. exists (fileIdValue h task). split; [by apply getFileId_truthy |].
    rewrite getTrackingMode_truthy by done. unfold trackingModeValue. rewrite Hm.
    by destruct (truthy (fileIdValue h task)).
Qed.

(** Any truthy [tracking_mode] is returned as it is, enum member or not. *)
Lemma getTrackingMode_explicit h task :
  truthy task = true →
  truthy (prop h task "tracking_mode") = true →
  getTrackingMode h task = Normal (prop h task "tracking_mode").
Proof.
  intros Ht Hm. rewrite getTrackingMode_truthy by done.
  unfold trackingModeValue. by rewrite Hm.
Qed.

(** [isStandaloneTask] does validate the field: anything but the two enum
    members is decided by [getFileId]. *)
Lemma isStandaloneTask_invalid_mode h task :
  truthy task = true →
  strict_eq_str (prop h task "tracking_mode") "STANDALONE" = false →
  strict_eq_str (prop h task "tracking_mode") "FILE_BASED" = false →
  isStandaloneTask h task = Normal (negb (truthy (fileIdValue h task))).
Proof.
  intros Ht Hs Hf. unfold isStandaloneTask. rewrite Ht. simpl negb. cbv iota.
  rewrite !getProp_truthy, getFileId_truthy by done. cbn [mbind completion_bind].
  by rewrite Hs, Hf.
Qed.
End tracking_mode.

Lemma absent_task_not_standalone_witness :
  truthy VUndefined = false ∧
  isStandaloneTask [] VUndefined = Normal false ∧
  getTrackingMode [] VUndefined = Normal (VStr "STANDALONE").
Proof.
  split; [reflexivity |].
  exact (absent_task_not_standalone [] VUndefined eq_refl).
Defined.

(** C1 at [{ tracking_mode: "BOGUS" }]: the explicit value is neither enum
    member and no identifier is resolvable, so the contract asks for
    ['STANDALONE'], which is what [isStandaloneTask] concludes; the code
    returns the string ["BOGUS"]. *)
Theorem getTrackingMode_returns_invalid_mode :
  prop store_bogus_mode (VRef 0) "tracking_mode" = VStr "BOGUS" ∧
  getFileId store_bogus_mode (VRef 0) = Normal VNull ∧
  isStandaloneTask store_bogus_mode (VRef 0) = Normal true ∧
  getTrackingMode store_bogus_mode (VRef 0) = Normal (VStr "BOGUS") ∧
  (∀ m, getTrackingMode store_bogus_mode (VRef 0) ≠ Normal (TrackingMode_value m)).
Proof.
  repeat (split; [vm_compute; reflexivity |]).
  intros m. vm_compute. destruct m; discriminate.
Qed.

(** ** Normalization of one record *)

Section normalize.
Implicit Types (h : heap) (task v : value) (k : string).

Lemma normalized_prop_file_id h task :
  prop (h ++ [CObj (normalizedProps h task)]) (VRef (List.length h)) "file_id"
  = fileIdValue h task.
Proof.
  rewrite prop_alloc_new. unfold normalizedProps.
  rewrite !lookup_insert_ne by done. by rewrite lookup_insert_eq.
Qed.

Lemma normalized_prop_other h task k :
  k ∉ overlay_keys → k ≠ "length" →
  prop (h ++ [CObj (normalizedProps h task)]) (VRef (List.length h)) k
  = prop h task k.
Proof.
  intros Hk Hl. rewrite prop_alloc_new, normalizedProps_other by done.
  symmetry. by apply prop_ownEnumerable.
Qed.

(** What a read through any value [v] finds once the normalized object is
    allocated: what it found before, unless [v] points at the new
    object. *)
Lemma prop_after_normalize h task v k :
  prop (h ++ [CObj (normalizedProps h task)]) v k = prop h v k ∨
  v = VRef (List.length h).
Proof.
  destruct v as [| | | | s | l]; try by left.
  destruct (lt_eq_lt_dec l (List.length h)) as [[Hlt | ->] | Hgt].
  - left. by apply prop_alloc_old.
  - by right.
  - left. rewrite (prop_dangling h) by lia. apply prop_dangling.
    rewrite length_app. simpl. lia.
Qed.

(** C5: resolving the identifier of a normalized record gives what
    resolving the record gives: [normalizeTask] returns, and [getFileId]
    of its result is [getFileId] of its argument. *)
Theorem getFileId_normalizeTask h task :
  ∃ r h', normalizeTask h task = Normal (r, h') ∧
          getFileId h' r = getFileId h task.
Proof.
  destruct (truthy task) eqn:Ht.
  2: { exists task, h. split; [by apply normalizeTask_falsy | done]. }
  eexists _, _. split; [by apply normalizeTask_truthy |].
  rewrite !getFileId_truthy by done. f_equal.
  unfold fileIdValue at 1. cbv zeta.
  rewrite normalized_prop_file_id.
  rewrite !(normalized_prop_other h task) by (done || not_overlay).
  destruct (truthy (fileIdValue h task)) eqn:Hf; [done |].
  rewrite (fileIdValue_falsy _ _ Hf).
  destruct (fileIdValue_falsy_inv _ _ Hf) as (Ha & Hb & Hc & Hd). rewrite Hb.
  destruct (prop_after_normalize h task (prop h task "source") "permit_file_id")
    as [-> | Hnew].
  - rewrite Hc.
    destruct (prop_after_normalize h task (prop h task "source") "file_id")
      as [-> | Hnew]; [by rewrite Hd |].
    rewrite Hnew, normalized_prop_file_id. by rewrite Hf.
  - rewrite Hnew, normalized_prop_file_id, Hf.
    rewrite normalized_prop_other by (done || not_overlay).
    by rewrite Hb.
Qed.

(** C7: on a falsy argument [normalizeTask] returns the argument and
    leaves the store alone.  On any other argument it returns a reference
    to an object at a location that was free: every object of the store,
    the argument among them, is still there unchanged and is another
    object; the new object carries every own property of the argument
    other than [file_id], [tracking_mode] and [assigned_to] with the value
    the argument has for it. *)
Theorem normalizeTask_overlay h task :
  (truthy task = false → normalizeTask h task = Normal (task, h)) ∧
  (truthy task = true →
   ∃ l' (m' : gmap string value) h',
     normalizeTask h task = Normal (VRef l', h') ∧
     h !! l' = None ∧
     h' !! l' = Some (CObj m') ∧
     (∀ l c, h !! l = Some c → h' !! l = Some c ∧ l ≠ l') ∧
     (∀ k, k ∉ overlay_keys → m' !! k = ownEnumerable h task !! k) ∧
     (∀ l m k x, task = VRef l → h !! l = Some (CObj m) →
                 k ∉ overlay_keys → m !! k = Some x → m' !! k = Some x)).
Proof.
  split; [by apply normalizeTask_falsy |].
  intros Ht. exists (List.length h), (normalizedProps h task), (h ++ [CObj (normalizedProps h task)]).
  split; [by apply normalizeTask_truthy |].
  split; [by apply lookup_ge_None |].
  split; [by rewrite lookup_app_r, Nat.sub_diag |].
  split; [| split].
  - intros l c Hl. pose proof (lookup_lt_Some _ _ _ Hl).
    split; [by rewrite lookup_app_l | lia].
  - intros k Hk. by apply normalizedProps_other.
  - intros l m k x -> Hl Hk Hx. rewrite normalizedProps_other by done.
    simpl. by rewrite Hl.
Qed.

(** While one of [assigned_to], [assignment], [employee_code] is truthy,
    the overlay of [normalizeTask] is what [getAssignedTo] returns. *)
Lemma assignedValue_getAssignedTo h task :
  truthy task = true →
  truthy (assignedValue h task) = true →
  getAssignedTo h task = Normal (assignedValue h task).
Proof.
  intros Ht. unfold getAssignedTo, assignedValue. rewrite Ht. simpl negb. cbv iota.
  rewrite !getProp_truthy by done.
  repeat (rewrite or_else_Normal || case_match); congruence.
Qed.
End normalize.

Lemma normalizeTask_overlay_witness :
  truthy (VRef 1) = true ∧
  ∃ l' (m' : gmap string value) h',
    normalizeTask store_migrated (VRef 1) = Normal (VRef l', h') ∧
    h' !! 1%nat = store_migrated !! 1%nat ∧ 1%nat ≠ l' ∧
    m' !! "source" = Some (VRef 0) ∧
    m' !! "permit_file_id" = Some (VStr "leg").
Proof.
  split; [reflexivity |].
  destruct (normalizeTask_overlay store_migrated (VRef 1)) as [_ Hn].
  destruct (Hn eq_refl) as (l' & m' & h' & Hr & _ & _ & Hold & _ & Hrec).
  exists l', m', h'. split; [exact Hr |].
  destruct (Hold 1%nat _ eq_refl) as [Hsame Hne].
  split; [exact Hsame |]. split; [exact Hne |].
  split; eapply (Hrec 1%nat); try reflexivity; not_overlay.
Defined.

(** C3 at [{ assigned_to_employee_code: "E7" }]: [getAssignedTo] returns
    ["E7"], and the [assigned_to] that [normalizeTask] writes is
    [undefined]; its chain stops at [employee_code]. *)
Theorem normalizeTask_assigned_to_differs :
  getAssignedTo store_employee_code (VRef 0) = Normal (VStr "E7") ∧
  (r ← normalizeTask store_employee_code (VRef 0);
   Normal (ownEnumerable r.2 r.1 !! "assigned_to")) = Normal (Some VUndefined).
Proof. split; vm_compute; reflexivity. Qed.

(** ** Normalization of an array of records *)

Section normalize_all.
Implicit Types (h : heap) (task tasks : value) (ts rs : list value).

Lemma normalizeTask_returns h task :
  ∃ r h', normalizeTask h task = Normal (r, h') ∧ h `prefix_of` h'.
Proof.
  destruct (truthy task) eqn:Ht.
  - eexists _, _. split; [by apply normalizeTask_truthy |]. by apply prefix_app_r.
  - exists task, h. split; [by apply normalizeTask_falsy | done].
Qed.

(** The calls of [map] run one after the other: [hs] lists the stores
    between them, call [i] starting in store [i] and leaving store
    [i + 1]. *)
Lemma map_normalizeTask_returns h ts :
  ∃ rs h' (hs : list (list cell)),
    map_normalizeTask h ts = Normal (rs, h') ∧
    List.length rs = List.length ts ∧
    h `prefix_of` h' ∧
    hs !! 0%nat = Some h ∧
    (∀ i t, ts !! i = Some t →
       ∃ hi hi' r, hs !! i = Some hi ∧ hs !! S i = Some hi' ∧
                   normalizeTask hi t = Normal (r, hi') ∧ rs !! i = Some r).
Proof.
  revert h. induction ts as [| t ts IH]; intros h.
  - exists [], h, [h]. by repeat split.
  - destruct (normalizeTask_returns h t) as (r & h1 & Hr & Hp1).
    destruct (IH h1) as (rs & h2 & hs & Hm & Hlen & Hp2 & Hs0 & Hcalls).
    exists (r :: rs), h2, (h :: hs). split.
    { cbn [map_normalizeTask]. rewrite Hr. cbn [mbind completion_bind].
      by rewrite Hm. }
    split; [simpl; by rewrite Hlen |].
    split; [by etrans |].
    split; [done |].
    intros [| i] t' Hi.
    + injection Hi as <-. by exists h, h1, r.
    + destruct (Hcalls i t' Hi) as (hi & hi' & r' & ? & ? & ? & ?).
      by exists hi, hi', r'.
Qed.

(** The stores between the calls of [map], with where they end: store
    [0] is the one the calls start in, the last one is the one they
    leave, and what a call leaves is still there at the end. *)
Lemma map_normalizeTask_chain h ts :
  ∃ rs h1 (hs : list (list cell)),
    map_normalizeTask h ts = Normal (rs, h1) ∧
    List.length rs = List.length ts ∧
    h `prefix_of` h1 ∧
    hs !! 0%nat = Some h ∧
    hs !! List.length ts = Some h1 ∧
    (∀ i t, ts !! i = Some t →
       ∃ hi hi' r, hs !! i = Some hi ∧ hs !! S i = Some hi' ∧
                   normalizeTask hi t = Normal (r, hi') ∧ rs !! i = Some r ∧
                   hi' `prefix_of` h1).
Proof.
  revert h. induction ts as [| t ts IH]; intros h.
  - exists [], h, [h]. by repeat split.
  - destruct (normalizeTask_returns h t) as (r & h1 & Hr & Hp1).
    destruct (IH h1) as (rs & h2 & hs & Hm & Hlen & Hp2 & Hs0 & Hlast & Hcalls).
    exists (r :: rs), h2, (h :: hs). split.
    { cbn [map_normalizeTask]. rewrite Hr. cbn [mbind completion_bind].
      by rewrite Hm. }
    split; [simpl; by rewrite Hlen |].
    split; [by etrans |].
    split; [done |].
    split; [done |].
    intros [| i] t' Hi.
    + injection Hi as <-. by exists h, h1, r.
    + destruct (Hcalls i t' Hi) as (hi & hi' & r' & ? & ? & ? & ? & ?).
      by exists hi, hi', r'.
Qed.

(** C8: on anything that is not an array [normalizeTasks] returns a new
    empty array and does not raise.  On an array it returns a new array of
    the same length whose element [i] is what the call of [normalizeTask]
    on element [i] of the argument returned, the calls running in the
    order of the elements; the objects of the store stay as they were.
    The returned store is the one the last call left with the array
    added: what each call built is in it unchanged, and the array is at a
    location that was free in every one of the stores of the calls, so
    that no element is the array itself and none points outside the
    store. *)
Theorem normalizeTasks_elementwise h tasks :
  (isArray h tasks = None →
   ∃ l' h', normalizeTasks h tasks = Normal (VRef l', h') ∧
            h !! l' = None ∧ h' !! l' = Some (CArr []) ∧
            (∀ l c, h !! l = Some c → h' !! l = Some c) ∧
            List.length h' = S (List.length h)) ∧
  (∀ ts, isArray h tasks = Some ts →
   ∃ l' rs h' (hs : list (list cell)) h1,
     normalizeTasks h tasks = Normal (VRef l', h') ∧
     h !! l' = None ∧ h' !! l' = Some (CArr rs) ∧
     (∀ l c, h !! l = Some c → h' !! l = Some c) ∧
     List.length rs = List.length ts ∧
     hs !! 0%nat = Some h ∧
     hs !! List.length ts = Some h1 ∧
     h1 !! l' = None ∧
     (∀ l c, h1 !! l = Some c → h' !! l = Some c) ∧
     List.length h' = S (List.length h1) ∧
     (∀ i t, ts !! i = Some t →
        ∃ hi hi' r, hs !! i = Some hi ∧ hs !! S i = Some hi' ∧
                    normalizeTask hi t = Normal (r, hi') ∧ rs !! i = Some r ∧
                    hi' !! l' = None ∧
                    (∀ l c, hi' !! l = Some c → h' !! l = Some c))).
Proof.
  split.
  - intros Ha. exists (List.length h), (h ++ [CArr []]).
    unfold normalizeTasks. rewrite Ha. split; [done |].
    split; [by apply lookup_ge_None |].
    split; [by rewrite lookup_app_r, Nat.sub_diag |].
    split; [| rewrite length_app; simpl; lia].
    intros l c Hl. rewrite lookup_app_l; [done | by eapply lookup_lt_Some].
  - intros ts Ha.
    destruct (map_normalizeTask_chain h ts)
      as (rs & h1 & hs & Hm & Hlen & Hp & Hs0 & Hlast & Hcalls).
    assert (Hkeep : ∀ h2 l c, h2 `prefix_of` h1 → h2 !! l = Some c →
                    (h1 ++ [CArr rs]) !! l = Some c).
    { intros h2 l c Hp2 Hl. apply (prefix_lookup_Some h2); [done |].
      by apply prefix_app_r. }
    exists (List.length h1), rs, (h1 ++ [CArr rs]), hs, h1.
    unfold normalizeTasks. rewrite Ha, Hm. split; [done |].
    split; [apply lookup_ge_None; by apply prefix_length |].
    split; [by rewrite lookup_app_r, Nat.sub_diag |].
    split; [intros l c; by apply Hkeep |].
    split; [done |]. split; [done |]. split; [done |].
    split; [by apply lookup_ge_None |].
    split; [intros l c; by apply Hkeep |].
    split; [rewrite length_app; simpl; lia |].
    intros i t Hi.
    destruct (Hcalls i t Hi) as (hi & hi' & r & Hhi & Hhi' & Hr & Hri & Hpi).
    exists hi, hi', r. repeat (split; [done |]).
    split; [apply lookup_ge_None; by apply prefix_length |].
    intros l c. by apply Hkeep.
Qed.
End normalize_all.

(** [{ file_id: .. }] is not an array; [[record, null]] at location 2
    is: element 0 of the result is a new object, in the returned store,
    with the [file_id] of the record, and it is not the array. *)
Lemma normalizeTasks_elementwise_witness :
  isArray store_migrated (VRef 1) = None ∧
  (∃ l' h', normalizeTasks store_migrated (VRef 1) = Normal (VRef l', h') ∧
            h' !! l' = Some (CArr [])) ∧
  isArray (store_migrated ++ [CArr [VRef 1; VNull]]) (VRef 2) = Some [VRef 1; VNull] ∧
  (∃ l' rs h' l0 (m : gmap string value),
     normalizeTasks (store_migrated ++ [CArr [VRef 1; VNull]]) (VRef 2)
       = Normal (VRef l', h') ∧
     h' !! l' = Some (CArr rs) ∧ List.length rs = 2%nat ∧
     rs !! 0%nat = Some (VRef l0) ∧ l0 ≠ l' ∧
     h' !! l0 = Some (CObj m) ∧ m !! "file_id" = Some (VStr "cur")).
Proof.
  split; [reflexivity |]. split.
  { destruct (normalizeTasks_elementwise store_migrated (VRef 1)) as [Hn _].
    destruct (Hn eq_refl) as (l' & h' & Hr & _ & Hl & _). by exists l', h'. }
  split; [reflexivity |].
  destruct (normalizeTasks_elementwise (store_migrated ++ [CArr [VRef 1; VNull]]) (VRef 2))
    as [_ Ha].
  destruct (Ha _ eq_refl)
    as (l' & rs & h' & hs & h1 & Hr & _ & Hl & _ & Hlen & Hs0 & _ & _ & _ & _ & Hcalls).
  destruct (Hcalls 0%nat (VRef 1) eq_refl)
    as (hi & hi' & r & Hhi & _ & Hcall & Hri & Hfree & Hkeep).
  rewrite Hs0 in Hhi. injection Hhi as <-.
  vm_compute in Hcall. injection Hcall as <- <-.
  exists l', rs, h', 3%nat, (normalizedProps store_migrated (VRef 1)).
  split; [exact Hr |]. split; [exact Hl |]. split; [exact Hlen |].
  split; [exact Hri |].
  split; [intros <-; vm_compute in Hfree; discriminate |].
  split; [apply Hkeep; vm_compute; reflexivity | vm_compute; reflexivity].
Defined.

(** ** Assignment information *)

Section assignment.
Implicit Types (h : heap) (file v : value).

Lemma getAssignmentInfo_current h file :
  truthy file = true →
  truthy (prop h file "current_assignment") = true →
  getAssignmentInfo h file =
    d ← Date_new h (prop h (prop h file "current_assignment") "assigned_at");
    Normal (Some {|
      assignedTo := prop h (prop h file "current_assignment") "employee_code";
      assignedToName := prop h (prop h file "current_assignment") "employee_name";
      assignedAt := d;
      stage := prop h (prop h file "current_assignment") "stage" |}).
Proof.
  intros Hf Hc. unfold getAssignmentInfo. rewrite Hf. simpl negb. cbv iota.
  rewrite !getProp_truthy by done. cbn [mbind completion_bind]. rewrite Hc.
  rewrite !getProp_truthy by done. reflexivity.
Qed.

Lemma getAssignmentInfo_legacy h file :
  truthy file = true →
  truthy (prop h file "current_assignment") = false →
  truthy (prop h file "assignment") = true →
  getAssignmentInfo h file =
    d ← Date_new h (prop h (prop h file "assignment") "assigned_at");
    Normal (Some {|
      assignedTo := prop h (prop h file "assignment") "assigned_to";
      assignedToName := VUndefined;
      assignedAt := d;
      stage := prop h (prop h file "assignment") "assigned_for_stage" |}).
Proof.
  intros Hf Hc Ho. unfold getAssignmentInfo. rewrite Hf. simpl negb. cbv iota.
  rewrite !getProp_truthy by done. cbn [mbind completion_bind]. rewrite Hc, Ho.
  rewrite !getProp_truthy by done. reflexivity.
Qed.

Lemma getAssignmentInfo_neither h file :
  truthy file = true →
  truthy (prop h file "current_assignment") = false →
  truthy (prop h file "assignment") = false →
  getAssignmentInfo h file = Normal None.
Proof.
  intros Hf Hc Ho. unfold getAssignmentInfo. rewrite Hf. simpl negb. cbv iota.
  rewrite !getProp_truthy by done. cbn [mbind completion_bind]. by rewrite Hc, Ho.
Qed.

Lemma getAssignmentInfo_absent h file :
  truthy file = false → getAssignmentInfo h file = Normal None.
Proof. intros Hf. unfold getAssignmentInfo. by rewrite Hf. Qed.

(** C6: the result of [getAssignmentInfo] is built from one shape only.
    With a truthy [current_assignment] every field is read from it; else
    with a truthy [assignment] every field is read from it and
    [assignedToName] is [undefined]; else the result is [null].  So
    without a current-shape object no result carries a name. *)
Theorem getAssignmentInfo_one_shape h file :
  (truthy file = false → getAssignmentInfo h file = Normal None) ∧
  (truthy file = true →
   truthy (prop h file "current_assignment") = true →
   getAssignmentInfo h file =
     d ← Date_new h (prop h (prop h file "current_assignment") "assigned_at");
     Normal (Some {|
       assignedTo := prop h (prop h file "current_assignment") "employee_code";
       assignedToName := prop h (prop h file "current_assignment") "employee_name";
       assignedAt := d;
       stage := prop h (prop h file "current_assignment") "stage" |})) ∧
  (truthy file = true →
   truthy (prop h file "current_assignment") = false →
   truthy (prop h file "assignment") = true →
   getAssignmentInfo h file =
     d ← Date_new h (prop h (prop h file "assignment") "assigned_at");
     Normal (Some {|
       assignedTo := prop h (prop h file "assignment") "assigned_to";
       assignedToName := VUndefined;
       assignedAt := d;
       stage := prop h (prop h file "assignment") "assigned_for_stage" |})) ∧
  (truthy file = true →
   truthy (prop h file "current_assignment") = false →
   truthy (prop h file "assignment") = false →
   getAssignmentInfo h file = Normal None) ∧
  (∀ info,
     truthy (prop h file "current_assignment") = false →
     getAssignmentInfo h file = Normal (Some info) →
     assignedToName info = VUndefined).
Proof.
  split; [apply getAssignmentInfo_absent |].
  split; [apply getAssignmentInfo_current |].
  split; [apply getAssignmentInfo_legacy |].
  split; [apply getAssignmentInfo_neither |].
  intros info Hc.
  destruct (truthy file) eqn:Hf; [| by rewrite getAssignmentInfo_absent].
  destruct (truthy (prop h file "assignment")) eqn:Ho;
    [| by rewrite getAssignmentInfo_neither].
  rewrite getAssignmentInfo_legacy by done.
  destruct (Date_new _ _); cbn [mbind completion_bind]; [| done].
  by intros [= <-].
Qed.

(** [new Date] of a primitive never raises. *)
Lemma Date_new_primitive h v : (∀ l, v ≠ VRef l) → Date_new h v = Normal (MkDate v).
Proof.
  intros Hv. unfold Date_new.
  replace (toStringThrows (List.length h) h v) with false; [done |].
  destruct v; try by destruct (List.length h). by destruct (Hv l).
Qed.

(** [getAssignmentInfo] raises exactly when [new Date] does, on the
    [assigned_at] of the assignment object it selected. *)
Lemma getAssignmentInfo_raises_iff h file :
  getAssignmentInfo h file = Throw TypeError ↔
  ∃ a, assignedAtOf h file = Some a ∧ Date_new h a = Throw TypeError.
Proof.
  unfold assignedAtOf.
  destruct (truthy file) eqn:Hf; simpl negb; cbv iota.
  2: { rewrite getAssignmentInfo_absent by done. split; [done | by intros (? & ? & ?)]. }
  destruct (truthy (prop h file "current_assignment")) eqn:Hc.
  { rewrite getAssignmentInfo_current by done. split.
    - intros Hd. eexists. split; [done |]. by destruct (Date_new _ _) as [|[]].
    - intros (a & [= <-] & ->). done. }
  destruct (truthy (prop h file "assignment")) eqn:Ho.
  { rewrite getAssignmentInfo_legacy by done. split.
    - intros Hd. eexists. split; [done |]. by destruct (Date_new _ _) as [|[]].
    - intros (a & [= <-] & ->). done. }
  rewrite getAssignmentInfo_neither by done. split; [done | by intros (? & ? & ?)].
Qed.
End assignment.

Lemma getAssignmentInfo_one_shape_witness :
  truthy (VRef 1) = true ∧
  truthy (prop store_legacy_assignment (VRef 1) "current_assignment") = false ∧
  truthy (prop store_legacy_assignment (VRef 1) "assignment") = true ∧
  getAssignmentInfo store_legacy_assignment (VRef 1) =
    Normal (Some {| assignedTo := VStr "E1"; assignedToName := VUndefined;
                    assignedAt := MkDate (VStr "2024-01-01T00:00:00Z");
                    stage := VStr "review" |}) ∧
  truthy (VRef 2) = true ∧
  truthy (prop store_both_assignments (VRef 2) "current_assignment") = true ∧
  getAssignmentInfo store_both_assignments (VRef 2) =
    Normal (Some {| assignedTo := VStr "E2"; assignedToName := VStr "Ada";
                    assignedAt := MkDate (VStr "2024-02-02T00:00:00Z");
                    stage := VStr "qa" |}) ∧
  truthy VNull = false ∧
  getAssignmentInfo [] VNull = Normal None.
Proof.
  destruct (getAssignmentInfo_one_shape store_legacy_assignment (VRef 1))
    as (_ & _ & Hleg & _).
  destruct (getAssignmentInfo_one_shape store_both_assignments (VRef 2))
    as (_ & Hcur & _).
  destruct (getAssignmentInfo_one_shape [] VNull) as (Habs & _).
  do 3 (split; [reflexivity |]).
  split; [exact (Hleg eq_refl eq_refl eq_refl) |].
  do 2 (split; [reflexivity |]).
  split; [exact (Hcur eq_refl eq_refl) |].
  split; [reflexivity |].
  exact (Habs eq_refl).
Defined.

(** ** Raising *)

Section totality.
Implicit Types (h : heap) (v : value).

Lemma isStandaloneTask_truthy h v :
  truthy v = true →
  isStandaloneTask h v =
    Normal (if strict_eq_str (prop h v "tracking_mode") "STANDALONE" then true
            else if strict_eq_str (prop h v "tracking_mode") "FILE_BASED" then false
            else negb (truthy (fileIdValue h v))).
Proof.
  intros Hv. unfold isStandaloneTask. rewrite Hv. simpl negb. cbv iota.
  rewrite !getProp_truthy, getFileId_truthy by done. cbn [mbind completion_bind].
  by repeat case_match.
Qed.

Lemma getFileDisplayName_truthy h v :
  truthy v = true →
  getFileDisplayName h v =
    Normal (if negb (truthy (fileIdValue h v)) then VStr "Standalone Task"
            else if truthy (prop h v "file_name") then prop h v "file_name"
            else if truthy (prop h v "original_filename") then prop h v "original_filename"
            else fileIdValue h v).
Proof.
  intros Hv. unfold getFileDisplayName.
  rewrite !getProp_truthy, getFileId_truthy by done. cbn [mbind completion_bind].
  by repeat case_match.
Qed.

Lemma getAssignedTo_returns h v : ∃ r, getAssignedTo h v = Normal r.
Proof.
  unfold getAssignedTo. destruct (truthy v) eqn:Hv; simpl negb; cbv iota; [| by eexists].
  rewrite !getProp_truthy by done.
  repeat (rewrite or_else_Normal || case_match); by eexists.
Qed.

(** X23: nine of the ten exported functions return on every argument:
    no property is read from [undefined] or [null]. *)
Lemma functions_return h v :
  (∃ r, getFileId h v = Normal r) ∧
  (∃ b, isStandaloneTask h v = Normal b) ∧
  (∃ r, getTrackingMode h v = Normal r) ∧
  (∃ r h', normalizeTask h v = Normal (r, h')) ∧
  (∃ r h', normalizeTasks h v = Normal (r, h')) ∧
  (∃ r, getFileDisplayName h v = Normal r) ∧
  (∃ r, getAssignedTo h v = Normal r) ∧
  (∃ r, formatTrackingMode v = Normal r) ∧
  (∃ r, getTrackingModeBadgeVariant v = Normal r).
Proof.
  repeat split; try by eexists.
  - destruct (truthy v) eqn:Hv; eexists;
      [by apply getFileId_truthy | by apply getFileId_falsy].
  - destruct (truthy v) eqn:Hv; eexists; [by apply isStandaloneTask_truthy |].
    unfold isStandaloneTask. by rewrite Hv.
  - destruct (truthy v) eqn:Hv; eexists; [by apply getTrackingMode_truthy |].
    unfold getTrackingMode. by rewrite Hv.
  - destruct (normalizeTask_returns h v) as (r & h' & Hr & _). by exists r, h'.
  - unfold normalizeTasks. destruct (isArray h v) as [ts |]; [| by eexists _, _].
    destruct (map_normalizeTask_returns h ts) as (rs & h1 & _ & -> & _).
    by eexists _, _.
  - destruct (truthy v) eqn:Hv; eexists; [by apply getFileDisplayName_truthy |].
    unfold getFileDisplayName. by rewrite getFileId_falsy.
  - apply getAssignedTo_returns.
Qed.

(** X24: what the functions return on a falsy (absent) argument. *)
Lemma absent_defaults h v :
  truthy v = false →
  getFileId h v = Normal VNull ∧
  isStandaloneTask h v = Normal false ∧
  getTrackingMode h v = Normal (VStr "STANDALONE") ∧
  normalizeTask h v = Normal (v, h) ∧
  getFileDisplayName h v = Normal (VStr "Standalone Task") ∧
  getAssignmentInfo h v = Normal None ∧
  getAssignedTo h v = Normal VNull.
Proof.
  intros Hv.
  unfold isStandaloneTask, getTrackingMode, getFileDisplayName, getAssignedTo.
  rewrite getFileId_falsy, normalizeTask_falsy, getAssignmentInfo_absent by done.
  by rewrite Hv.
Qed.

(** [getAssignmentInfo] returns whenever the [assigned_at] it reads is a
    primitive. *)
Lemma getAssignmentInfo_returns h v :
  (∀ a l, assignedAtOf h v = Some a → a ≠ VRef l) →
  ∃ r, getAssignmentInfo h v = Normal r.
Proof.
  intros Hprim. destruct (getAssignmentInfo h v) as [r | []] eqn:Hg; [by eexists |].
  apply getAssignmentInfo_raises_iff in Hg as (a & Ha & Hd).
  rewrite Date_new_primitive in Hd; [done |]. intros l. by eapply Hprim.
Qed.
End totality.

(** C4 at [{ current_assignment: { employee_code: "E1", assigned_at:
    { toString: 1 } } }]: [new Date] cannot convert the object held by
    [assigned_at] to a primitive, and [getAssignmentInfo] raises
    [TypeError]. *)
Theorem getAssignmentInfo_raises :
  truthy (prop store_bad_date (VRef 2) "current_assignment") = true ∧
  assignedAtOf store_bad_date (VRef 2) = Some (VRef 0) ∧
  store_bad_date !! 0%nat = Some (CObj {[ "toString" := VNum (Num 1) ]}) ∧
  Date_new store_bad_date (VRef 0) = Throw TypeError ∧
  getAssignmentInfo store_bad_date (VRef 2) = Throw TypeError.
Proof. repeat split; vm_compute; reflexivity. Qed.

(** ** The examples of the specification *)

Example legacy_identifier :
  getFileId store_examples (VRef 0) = Normal (VStr "F1") ∧
  getTrackingMode store_examples (VRef 0) = Normal (VStr "FILE_BASED") ∧
  (r ← normalizeTask store_examples (VRef 0); Normal (prop r.2 r.1 "file_id"))
    = Normal (VStr "F1").
Proof. repeat split; vm_compute; reflexivity. Qed.

Example empty_record :
  getFileId store_examples (VRef 1) = Normal VNull ∧
  getTrackingMode store_examples (VRef 1) = Normal (VStr "STANDALONE") ∧
  getFileDisplayName store_examples (VRef 1) = Normal (VStr "Standalone Task").
Proof. repeat split; vm_compute; reflexivity. Qed.

Example explicit_mode_wins :
  getTrackingMode store_examples (VRef 2) = Normal (VStr "STANDALONE").
Proof. vm_compute; reflexivity. Qed.

Example normalize_sequence :
  (r ← normalizeTasks (store_examples ++ [CArr [VRef 0; VNull; VRef 2]]) (VRef 3);
   Normal (r.1, isArray r.2 r.1))
  = Normal (VRef 6, Some [VRef 4; VNull; VRef 5]).
Proof. vm_compute; reflexivity. Qed.

(** * Further properties of the module *)

(** ** A normalized record, read back *)

Section normalized.
Implicit Types (h : heap) (task v : value) (k : string).

Lemma normalized_prop_tracking_mode h task :
  prop (h ++ [CObj (normalizedProps h task)]) (VRef (List.length h)) "tracking_mode"
  = trackingModeValue h task.
Proof.
  rewrite prop_alloc_new. unfold normalizedProps.
  rewrite lookup_insert_ne by done. by rewrite lookup_insert_eq.
Qed.

Lemma normalized_prop_assigned_to h task :
  prop (h ++ [CObj (normalizedProps h task)]) (VRef (List.length h)) "assigned_to"
  = assignedValue h task.
Proof. rewrite prop_alloc_new. unfold normalizedProps. by rewrite lookup_insert_eq. Qed.

Lemma normalized_ownEnumerable h task :
  ownEnumerable (h ++ [CObj (normalizedProps h task)]) (VRef (List.length h))
  = normalizedProps h task.
Proof. unfold ownEnumerable. by rewrite lookup_app_r, Nat.sub_diag. Qed.

Lemma fileIdValue_normalized h task :
  fileIdValue (h ++ [CObj (normalizedProps h task)]) (VRef (List.length h))
  = fileIdValue h task.
Proof.
  unfold fileIdValue at 1. cbv zeta.
  rewrite normalized_prop_file_id.
  rewrite !(normalized_prop_other h task) by (done || not_overlay).
  destruct (truthy (fileIdValue h task)) eqn:Hf; [done |].
  rewrite (fileIdValue_falsy _ _ Hf).
  destruct (fileIdValue_falsy_inv _ _ Hf) as (Ha & Hb & Hc & Hd). rewrite Hb.
  destruct (prop_after_normalize h task (prop h task "source") "permit_file_id")
    as [-> | Hnew].
  - rewrite Hc.
    destruct (prop_after_normalize h task (prop h task "source") "file_id")
      as [-> | Hnew]; [by rewrite Hd |].
    rewrite Hnew, normalized_prop_file_id. by rewrite Hf.
  - rewrite Hnew, normalized_prop_file_id, Hf.
    rewrite normalized_prop_other by (done || not_overlay).
    by rewrite Hb.
Qed.

Lemma trackingModeValue_truthy h task : truthy (trackingModeValue h task) = true.
Proof.
  unfold trackingModeValue.
  destruct (truthy (prop h task "tracking_mode")) eqn:Hm; [done |].
  by destruct (truthy (fileIdValue h task)).
Qed.

Lemma trackingModeValue_normalized h task :
  trackingModeValue (h ++ [CObj (normalizedProps h task)]) (VRef (List.length h))
  = trackingModeValue h task.
Proof.
  unfold trackingModeValue at 1.
  by rewrite normalized_prop_tracking_mode, trackingModeValue_truthy.
Qed.

Lemma assignedValue_normalized h task :
  assignedValue (h ++ [CObj (normalizedProps h task)]) (VRef (List.length h))
  = assignedValue h task.
Proof.
  unfold assignedValue at 1. rewrite normalized_prop_assigned_to.
  rewrite !(normalized_prop_other h task) by (done || not_overlay).
  unfold assignedValue.
  destruct (truthy (prop h task "assigned_to")) eqn:Ha; [by rewrite Ha |].
  destruct (truthy (prop h task "assignment")) eqn:Hb; [by rewrite Hb |].
  destruct (truthy (prop h task "employee_code")) eqn:Hc; by rewrite ?Hc.
Qed.

Lemma normalizedProps_normalized h task :
  normalizedProps (h ++ [CObj (normalizedProps h task)]) (VRef (List.length h))
  = normalizedProps h task.
Proof.
  unfold normalizedProps at 1.
  rewrite assignedValue_normalized, trackingModeValue_normalized,
    fileIdValue_normalized, normalized_ownEnumerable.
  rewrite (insert_id (normalizedProps h task) "file_id").
  2: { unfold normalizedProps. rewrite !lookup_insert_ne by done.
       by rewrite lookup_insert_eq. }
  rewrite (insert_id (normalizedProps h task) "tracking_mode").
  2: { unfold normalizedProps. rewrite lookup_insert_ne by done.
       by rewrite lookup_insert_eq. }
  apply insert_id. unfold normalizedProps. by rewrite lookup_insert_eq.
Qed.

Lemma getAssignedTo_truthy h task :
  truthy task = true → getAssignedTo h task = Normal (assignedToValue h task).
Proof.
  intros Ht. unfold getAssignedTo, assignedToValue. rewrite Ht. simpl negb. cbv iota.
  rewrite !getProp_truthy by done.
  repeat (rewrite or_else_Normal || case_match); congruence.
Qed.

Lemma assignedToValue_normalized h task :
  assignedToValue (h ++ [CObj (normalizedProps h task)]) (VRef (List.length h))
  = assignedToValue h task.
Proof.
  unfold assignedToValue at 1. rewrite normalized_prop_assigned_to.
  rewrite !(normalized_prop_other h task) by (done || not_overlay).
  unfold assignedToValue, assignedValue.
  destruct (truthy (prop h task "assigned_to")) eqn:Ha; [by rewrite Ha |].
  destruct (truthy (prop h task "assignment")) eqn:Hb; [by rewrite Hb |].
  destruct (truthy (prop h task "employee_code")) eqn:Hc; by rewrite ?Hc.
Qed.
End normalized.

Section normalized_results.
Implicit Types (h : heap) (task v : value) (k : string).

Lemma strict_eq_str_truthy v lit :
  lit ≠ "" → strict_eq_str v lit = true → truthy v = true.
Proof.
  destruct v as [| | | | s |]; try done. simpl. intros Hl Hs.
  apply String.eqb_eq in Hs as ->. by apply String.eqb_neq in Hl as ->.
Qed.

Lemma strict_eq_str_falsy v lit :
  lit ≠ "" → truthy v = false → strict_eq_str v lit = false.
Proof.
  intros Hl Hv. destruct (strict_eq_str v lit) eqn:Hs; [| done].
  by rewrite (strict_eq_str_truthy _ _ Hl Hs) in Hv.
Qed.

(** X1: the object [normalizeTask] builds for a truthy task carries, under
    [file_id] and [tracking_mode], what [getFileId] and [getTrackingMode]
    return for the task; its [tracking_mode] is never falsy. *)
Theorem normalizeTask_fields h task :
  truthy task = true →
  ∃ r h' fileId mode,
    normalizeTask h task = Normal (r, h') ∧
    getFileId h task = Normal fileId ∧
    getTrackingMode h task = Normal mode ∧
    prop h' r "file_id" = fileId ∧
    prop h' r "tracking_mode" = mode ∧
    truthy mode = true.
Proof.
  intros Ht. eexists _, _, _, _.
  split; [by apply normalizeTask_truthy |].
  split; [by apply getFileId_truthy |].
  split; [by apply getTrackingMode_truthy |].
  split; [apply normalized_prop_file_id |].
  split; [apply normalized_prop_tracking_mode | apply trackingModeValue_truthy].
Qed.

(** X2: [getTrackingMode] of a normalized task is [getTrackingMode] of the
    task. *)
Theorem getTrackingMode_normalizeTask h task :
  ∃ r h', normalizeTask h task = Normal (r, h') ∧
          getTrackingMode h' r = getTrackingMode h task.
Proof.
  destruct (truthy task) eqn:Ht.
  2: { exists task, h. split; [by apply normalizeTask_falsy | done]. }
  eexists _, _. split; [by apply normalizeTask_truthy |].
  rewrite !getTrackingMode_truthy by done. f_equal.
  apply trackingModeValue_normalized.
Qed.

(** X3: [isStandaloneTask] of a normalized task is [isStandaloneTask] of
    the task, also when the task carries an explicit mode that is not a
    member of [TrackingMode]. *)
Theorem isStandaloneTask_normalizeTask h task :
  ∃ r h', normalizeTask h task = Normal (r, h') ∧
          isStandaloneTask h' r = isStandaloneTask h task.
Proof.
  destruct (truthy task) eqn:Ht.
  2: { exists task, h. split; [by apply normalizeTask_falsy | done]. }
  eexists _, _. split; [by apply normalizeTask_truthy |].
  rewrite !isStandaloneTask_truthy by done. f_equal.
  rewrite normalized_prop_tracking_mode, fileIdValue_normalized.
  unfold trackingModeValue.
  destruct (truthy (prop h task "tracking_mode")) eqn:Hm; [done |].
  rewrite !(strict_eq_str_falsy (prop h task "tracking_mode")) by done.
  by destruct (truthy (fileIdValue h task)).
Qed.

(** X4: [getAssignedTo] of a normalized task is [getAssignedTo] of the
    task: the field [assigned_to_employee_code], which the overlay of
    [normalizeTask] does not look at, is still there to be found. *)
Theorem getAssignedTo_normalizeTask h task :
  ∃ r h', normalizeTask h task = Normal (r, h') ∧
          getAssignedTo h' r = getAssignedTo h task.
Proof.
  destruct (truthy task) eqn:Ht.
  2: { exists task, h. split; [by apply normalizeTask_falsy | done]. }
  eexists _, _. split; [by apply normalizeTask_truthy |].
  rewrite !getAssignedTo_truthy by done. f_equal.
  apply assignedToValue_normalized.
Qed.

(** X5: [getFileDisplayName] of a normalized item is [getFileDisplayName]
    of the item. *)
Theorem getFileDisplayName_normalizeTask h task :
  ∃ r h', normalizeTask h task = Normal (r, h') ∧
          getFileDisplayName h' r = getFileDisplayName h task.
Proof.
  destruct (truthy task) eqn:Ht.
  2: { exists task, h. split; [by apply normalizeTask_falsy | done]. }
  eexists _, _. split; [by apply normalizeTask_truthy |].
  rewrite !getFileDisplayName_truthy by done. f_equal.
  rewrite fileIdValue_normalized.
  by rewrite !(normalized_prop_other h task) by (done || not_overlay).
Qed.

(** X6: normalizing a normalized task builds an object with the same
    properties: [normalizeTask] is idempotent up to the identity of the
    object it allocates. *)
Theorem normalizeTask_idempotent h task :
  ∃ r1 h1 r2 h2,
    normalizeTask h task = Normal (r1, h1) ∧
    normalizeTask h1 r1 = Normal (r2, h2) ∧
    ownEnumerable h2 r2 = ownEnumerable h1 r1.
Proof.
  destruct (truthy task) eqn:Ht.
  2: { exists task, h, task, h. by rewrite normalizeTask_falsy. }
  eexists _, _, _, _. split; [by apply normalizeTask_truthy |].
  split; [by apply normalizeTask_truthy |].
  rewrite normalized_ownEnumerable, normalizedProps_normalized.
  by rewrite normalized_ownEnumerable.
Qed.

(** X7: whenever the [assigned_to] that [normalizeTask] writes is truthy,
    it is the value [getAssignedTo] returns for the task. *)
Theorem normalizeTask_assigned_to_truthy h task r h' :
  normalizeTask h task = Normal (r, h') →
  truthy task = true →
  truthy (prop h' r "assigned_to") = true →
  getAssignedTo h task = Normal (prop h' r "assigned_to").
Proof.
  intros Hn Ht. rewrite normalizeTask_truthy in Hn by done.
  injection Hn as <- <-. rewrite normalized_prop_assigned_to.
  by apply assignedValue_getAssignedTo.
Qed.
End normalized_results.

Lemma normalizeTask_fields_witness :
  truthy (VRef 0) = true ∧
  ∃ r h' fileId mode,
    normalizeTask store_examples (VRef 0) = Normal (r, h') ∧
    getFileId store_examples (VRef 0) = Normal fileId ∧
    getTrackingMode store_examples (VRef 0) = Normal mode ∧
    prop h' r "file_id" = fileId ∧
    prop h' r "tracking_mode" = mode ∧
    truthy mode = true.
Proof.
  split; [reflexivity |].
  exact (normalizeTask_fields store_examples (VRef 0) eq_refl).
Defined.

Lemma normalizeTask_assigned_to_truthy_witness :
  normalizeTask store_legacy_assignment (VRef 1)
    = Normal (VRef 2, store_legacy_assignment
                        ++ [CObj (normalizedProps store_legacy_assignment (VRef 1))]) ∧
  truthy (VRef 1) = true ∧
  getAssignedTo store_legacy_assignment (VRef 1) = Normal (VRef 0).
Proof.
  split; [vm_compute; reflexivity |]. split; [reflexivity |].
  exact (normalizeTask_assigned_to_truthy store_legacy_assignment (VRef 1) (VRef 2)
           (store_legacy_assignment
              ++ [CObj (normalizedProps store_legacy_assignment (VRef 1))])
           eq_refl eq_refl eq_refl).
Defined.

(** ** Identifier, mode and display name *)

Section resolution.
Implicit Types (h : heap) (item task v : value).

Lemma strict_eq_str_eq v lit : strict_eq_str v lit = true → v = VStr lit.
Proof.
  destruct v as [| | | | s |]; try done. simpl. by intros ->%String.eqb_eq.
Qed.

Lemma is_TrackingMode_inv v :
  is_TrackingMode v = true → v = VStr "FILE_BASED" ∨ v = VStr "STANDALONE".
Proof.
  unfold is_TrackingMode. intros [H | H]%orb_true_iff; apply strict_eq_str_eq in H; auto.
Qed.

Lemma fileIdValue_truthy_or_null h item :
  truthy (fileIdValue h item) = true ∨ fileIdValue h item = VNull.
Proof.
  destruct (truthy (fileIdValue h item)) eqn:Hf; [by left | right].
  by apply fileIdValue_falsy.
Qed.

(** X8: in a record whose top-level [file_id] is falsy and whose legacy
    [permit_file_id] is truthy, [getFileId] returns the legacy value,
    whatever the nested [source] holds. *)
Theorem getFileId_legacy_top_level h item :
  truthy item = true →
  truthy (prop h item "file_id") = false →
  truthy (prop h item "permit_file_id") = true →
  getFileId h item = Normal (prop h item "permit_file_id").
Proof.
  intros Hi Ha Hb. rewrite getFileId_truthy by done.
  unfold fileIdValue. cbv zeta. by rewrite Ha, Hb.
Qed.

(** X9: [getFileId] returns a truthy value or [null]; a falsy field value
    such as the empty string or [0] is never returned. *)
Theorem getFileId_truthy_or_null h item :
  ∃ r, getFileId h item = Normal r ∧ (truthy r = true ∨ r = VNull).
Proof.
  destruct (truthy item) eqn:Hi.
  - exists (fileIdValue h item). split; [by apply getFileId_truthy |].
    apply fileIdValue_truthy_or_null.
  - exists VNull. split; [by apply getFileId_falsy | by right].
Qed.

(** X10: [getFileId] returns [null] exactly when the item is falsy or
    none of [file_id], [permit_file_id], [source.permit_file_id] and
    [source.file_id] is truthy. *)
Theorem getFileId_null_iff h item :
  getFileId h item = Normal VNull ↔
  truthy item = false ∨
  (truthy (prop h item "file_id") = false ∧
   truthy (prop h item "permit_file_id") = false ∧
   truthy (prop h (prop h item "source") "permit_file_id") = false ∧
   truthy (prop h (prop h item "source") "file_id") = false).
Proof.
  destruct (truthy item) eqn:Hi.
  2: { rewrite getFileId_falsy by done. split; [by left | done]. }
  rewrite getFileId_truthy by done. split.
  - intros [= Hf]. right. apply fileIdValue_falsy_inv. by rewrite Hf.
  - intros [? | (Ha & Hb & Hc & Hd)]; [done |]. f_equal.
    by apply fileIdValue_all_falsy.
Qed.

(** X11: [getTrackingMode] returns a member of [TrackingMode] exactly
    when the task is falsy, or its [tracking_mode] is falsy, or its
    [tracking_mode] is a member. *)
Theorem getTrackingMode_member_iff h task :
  ∃ mode, getTrackingMode h task = Normal mode ∧
    (is_TrackingMode mode = true ↔
     truthy task = false ∨
     truthy (prop h task "tracking_mode") = false ∨
     is_TrackingMode (prop h task "tracking_mode") = true).
Proof.
  destruct (truthy task) eqn:Ht.
  2: { exists (VStr "STANDALONE"). unfold getTrackingMode. rewrite Ht.
       split; [done |]. split; [by left | done]. }
  exists (trackingModeValue h task). split; [by apply getTrackingMode_truthy |].
  unfold trackingModeValue.
  destruct (truthy (prop h task "tracking_mode")) eqn:Hm.
  - split; [by right; right | by intros [? | [? | ?]]].
  - split; [by right; left |]. intros _. by destruct (truthy (fileIdValue h task)).
Qed.

(** X12: for a truthy task whose [tracking_mode] is falsy or a member of
    [TrackingMode], [isStandaloneTask] and [getTrackingMode] agree: the
    answer is [true] exactly when the mode is ['STANDALONE'], and [false]
    exactly when it is ['FILE_BASED']. *)
Theorem isStandaloneTask_agrees h task :
  truthy task = true →
  truthy (prop h task "tracking_mode") = false ∨
    is_TrackingMode (prop h task "tracking_mode") = true →
  ∃ mode b,
    getTrackingMode h task = Normal mode ∧
    isStandaloneTask h task = Normal b ∧
    (b = true ↔ mode = VStr "STANDALONE") ∧
    (b = false ↔ mode = VStr "FILE_BASED").
Proof.
  intros Ht Hm. eexists _, _.
  split; [by apply getTrackingMode_truthy |].
  split; [by apply isStandaloneTask_truthy |].
  unfold trackingModeValue. destruct Hm as [Hm | Hm].
  - rewrite Hm, !(strict_eq_str_falsy (prop h task "tracking_mode")) by done.
    by destruct (truthy (fileIdValue h task)).
  - by apply is_TrackingMode_inv in Hm as [-> | ->].
Qed.

(** X13: when [tracking_mode] is neither ['STANDALONE'] nor
    ['FILE_BASED'], whatever else it holds, [isStandaloneTask] answers
    [true] exactly when [getFileId] returns [null]. *)
Theorem isStandaloneTask_without_mode h task :
  truthy task = true →
  prop h task "tracking_mode" ≠ VStr "STANDALONE" →
  prop h task "tracking_mode" ≠ VStr "FILE_BASED" →
  ∃ b, isStandaloneTask h task = Normal b ∧
       (b = true ↔ getFileId h task = Normal VNull).
Proof.
  intros Ht Hs Hf. eexists. split; [by apply isStandaloneTask_truthy |].
  rewrite getFileId_truthy by done.
  destruct (strict_eq_str (prop h task "tracking_mode") "STANDALONE") eqn:Es;
    [by apply strict_eq_str_eq in Es |].
  destruct (strict_eq_str (prop h task "tracking_mode") "FILE_BASED") eqn:Ef;
    [by apply strict_eq_str_eq in Ef |].
  destruct (fileIdValue_truthy_or_null h task) as [Hv | Hv].
  - rewrite Hv. split; [done |]. intros [= Hn]. by rewrite Hn in Hv.
  - by rewrite Hv.
Qed.

(** X14: [getAssignedTo] returns a truthy value or [null]. *)
Theorem getAssignedTo_truthy_or_null h task :
  ∃ r, getAssignedTo h task = Normal r ∧ (truthy r = true ∨ r = VNull).
Proof.
  destruct (truthy task) eqn:Ht.
  2: { exists VNull. unfold getAssignedTo. rewrite Ht. split; [done | by right]. }
  exists (assignedToValue h task). split; [by apply getAssignedTo_truthy |].
  unfold assignedToValue. repeat case_match; auto.
Qed.

(** X15: the display name [getFileDisplayName] returns is never falsy,
    and it is ['Standalone Task'] whenever [getFileId] finds no
    identifier, even if the item has a [file_name]. *)
Theorem getFileDisplayName_truthy_result h item :
  ∃ r, getFileDisplayName h item = Normal r ∧
       truthy r = true ∧
       (getFileId h item = Normal VNull → r = VStr "Standalone Task").
Proof.
  destruct (truthy item) eqn:Hi.
  2: { exists (VStr "Standalone Task"). unfold getFileDisplayName.
       by rewrite getFileId_falsy. }
  eexists. split; [by apply getFileDisplayName_truthy |].
  rewrite getFileId_truthy by done.
  destruct (fileIdValue_truthy_or_null h item) as [Hv | Hv].
  - rewrite Hv. simpl negb. cbv iota. split.
    + by repeat case_match.
    + intros [= Hn]. by rewrite Hn in Hv.
  - by rewrite Hv.
Qed.

(** X16: the label and the badge of a task go with [isStandaloneTask]:
    for a truthy task whose [tracking_mode] is falsy or a member of
    [TrackingMode], a standalone task is shown as ['Standalone'] with
    the ['secondary'] badge and any other as ['File-Based'] with the
    ['default'] badge. *)
Theorem display_follows_isStandaloneTask h task :
  truthy task = true →
  truthy (prop h task "tracking_mode") = false ∨
    is_TrackingMode (prop h task "tracking_mode") = true →
  ∃ mode b,
    getTrackingMode h task = Normal mode ∧
    isStandaloneTask h task = Normal b ∧
    formatTrackingMode mode
      = Normal (VStr (if b then "Standalone" else "File-Based")) ∧
    getTrackingModeBadgeVariant mode
      = Normal (VStr (if b then "secondary" else "default")).
Proof.
  intros Ht Hm. eexists _, _.
  split; [by apply getTrackingMode_truthy |].
  split; [by apply isStandaloneTask_truthy |].
  unfold formatTrackingMode, getTrackingModeBadgeVariant, trackingModeValue.
  destruct Hm as [Hm | Hm].
  - rewrite Hm, !(strict_eq_str_falsy (prop h task "tracking_mode")) by done.
    by destruct (truthy (fileIdValue h task)).
  - by apply is_TrackingMode_inv in Hm as [-> | ->].
Qed.
End resolution.

Lemma getFileId_legacy_top_level_witness :
  truthy (VRef 0) = true ∧
  truthy (prop store_examples (VRef 0) "file_id") = false ∧
  truthy (prop store_examples (VRef 0) "permit_file_id") = true ∧
  getFileId store_examples (VRef 0) = Normal (VStr "F1").
Proof.
  do 3 (split; [vm_compute; reflexivity |]).
  exact (getFileId_legacy_top_level store_examples (VRef 0) eq_refl eq_refl eq_refl).
Defined.

Lemma isStandaloneTask_agrees_witness :
  truthy (VRef 2) = true ∧
  is_TrackingMode (prop store_examples (VRef 2) "tracking_mode") = true ∧
  ∃ mode b,
    getTrackingMode store_examples (VRef 2) = Normal mode ∧
    isStandaloneTask store_examples (VRef 2) = Normal b ∧
    (b = true ↔ mode = VStr "STANDALONE") ∧
    (b = false ↔ mode = VStr "FILE_BASED").
Proof.
  do 2 (split; [vm_compute; reflexivity |]).
  exact (isStandaloneTask_agrees store_examples (VRef 2) eq_refl (or_intror eq_refl)).
Defined.

Lemma isStandaloneTask_without_mode_witness :
  truthy (VRef 0) = true ∧
  prop store_bogus_mode (VRef 0) "tracking_mode" ≠ VStr "STANDALONE" ∧
  prop store_bogus_mode (VRef 0) "tracking_mode" ≠ VStr "FILE_BASED" ∧
  ∃ b, isStandaloneTask store_bogus_mode (VRef 0) = Normal b ∧
       (b = true ↔ getFileId store_bogus_mode (VRef 0) = Normal VNull).
Proof.
  assert (Hs : prop store_bogus_mode (VRef 0) "tracking_mode" ≠ VStr "STANDALONE")
    by (vm_compute; discriminate).
  assert (Hf : prop store_bogus_mode (VRef 0) "tracking_mode" ≠ VStr "FILE_BASED")
    by (vm_compute; discriminate).
  split; [reflexivity |]. split; [exact Hs |]. split; [exact Hf |].
  exact (isStandaloneTask_without_mode store_bogus_mode (VRef 0) eq_refl Hs Hf).
Defined.

Lemma display_follows_isStandaloneTask_witness :
  truthy (VRef 1) = true ∧
  truthy (prop store_examples (VRef 1) "tracking_mode") = false ∧
  ∃ mode b,
    getTrackingMode store_examples (VRef 1) = Normal mode ∧
    isStandaloneTask store_examples (VRef 1) = Normal b ∧
    formatTrackingMode mode
      = Normal (VStr (if b then "Standalone" else "File-Based")) ∧
    getTrackingModeBadgeVariant mode
      = Normal (VStr (if b then "secondary" else "default")).
Proof.
  do 2 (split; [vm_compute; reflexivity |]).
  exact (display_follows_isStandaloneTask store_examples (VRef 1) eq_refl
           (or_introl eq_refl)).
Defined.

(** ** Raising, case by case *)

Section raising.
Implicit Types (h : heap) (file sel v : value).

Lemma toStringThrows_object n h l (m : gmap string value) :
  h !! l = Some (CObj m) →
  toStringThrows n h (VRef l) = bool_decide (is_Some (m !! "toString")).
Proof. intros Hl. destruct n; simpl; by rewrite Hl. Qed.

Lemma assignedAtOf_selected h file sel :
  truthy file = true →
  (truthy (prop h file "current_assignment") = true ∧
   sel = prop h file "current_assignment") ∨
  (truthy (prop h file "current_assignment") = false ∧
   truthy (prop h file "assignment") = true ∧
   sel = prop h file "assignment") →
  assignedAtOf h file = Some (prop h sel "assigned_at").
Proof.
  intros Hf Hsel. unfold assignedAtOf. rewrite Hf. simpl negb. cbv iota.
  destruct Hsel as [[Hc ->] | (Hc & Ho & ->)]; by rewrite Hc, ?Ho.
Qed.

(** X17: when the [assigned_at] of the assignment object that
    [getAssignmentInfo] selects is a plain object, [getAssignmentInfo]
    raises [TypeError] exactly when that object has an own property
    [toString]. *)
Theorem getAssignmentInfo_raises_on_object h file sel l (m : gmap string value) :
  truthy file = true →
  (truthy (prop h file "current_assignment") = true ∧
   sel = prop h file "current_assignment") ∨
  (truthy (prop h file "current_assignment") = false ∧
   truthy (prop h file "assignment") = true ∧
   sel = prop h file "assignment") →
  prop h sel "assigned_at" = VRef l →
  h !! l = Some (CObj m) →
  getAssignmentInfo h file = Throw TypeError ↔ is_Some (m !! "toString").
Proof.
  intros Hf Hsel Hat Hl. rewrite getAssignmentInfo_raises_iff.
  rewrite (assignedAtOf_selected h file sel), Hat by done.
  unfold Date_new. split.
  - intros (a & [= <-] & Hd). rewrite (toStringThrows_object _ _ _ _ Hl) in Hd.
    by case_bool_decide.
  - intros Hm. exists (VRef l). split; [done |].
    rewrite (toStringThrows_object _ _ _ _ Hl). by rewrite bool_decide_eq_true_2.
Qed.

(** X18: when the [assigned_at] of the assignment object that
    [getAssignmentInfo] selects is a primitive (a missing field
    included), [getAssignmentInfo] returns a result whose [assignedAt] is
    the date built from that primitive. *)
Theorem getAssignmentInfo_returns_on_primitive h file sel :
  truthy file = true →
  (truthy (prop h file "current_assignment") = true ∧
   sel = prop h file "current_assignment") ∨
  (truthy (prop h file "current_assignment") = false ∧
   truthy (prop h file "assignment") = true ∧
   sel = prop h file "assignment") →
  (∀ l, prop h sel "assigned_at" ≠ VRef l) →
  ∃ info, getAssignmentInfo h file = Normal (Some info) ∧
          assignedAt info = MkDate (prop h sel "assigned_at").
Proof.
  intros Hf Hsel Hprim. destruct Hsel as [[Hc ->] | (Hc & Ho & ->)].
  - rewrite getAssignmentInfo_current, Date_new_primitive by done. by eexists.
  - rewrite getAssignmentInfo_legacy, Date_new_primitive by done. by eexists.
Qed.
End raising.

Lemma getAssignmentInfo_raises_on_object_witness :
  truthy (VRef 2) = true ∧
  truthy (prop store_bad_date (VRef 2) "current_assignment") = true ∧
  prop store_bad_date (VRef 1) "assigned_at" = VRef 0 ∧
  store_bad_date !! 0%nat = Some (CObj {[ "toString" := VNum (Num 1) ]}) ∧
  (getAssignmentInfo store_bad_date (VRef 2) = Throw TypeError ↔
   is_Some (({[ "toString" := VNum (Num 1) ]} : gmap string value) !! "toString")).
Proof.
  do 4 (split; [reflexivity |]).
  exact (getAssignmentInfo_raises_on_object store_bad_date (VRef 2) (VRef 1) 0%nat
           {[ "toString" := VNum (Num 1) ]}
           eq_refl (or_introl (conj eq_refl eq_refl)) eq_refl eq_refl).
Defined.

Lemma getAssignmentInfo_returns_on_primitive_witness :
  truthy (VRef 1) = true ∧
  truthy (prop store_legacy_assignment (VRef 1) "current_assignment") = false ∧
  truthy (prop store_legacy_assignment (VRef 1) "assignment") = true ∧
  prop store_legacy_assignment (VRef 0) "assigned_at" = VStr "2024-01-01T00:00:00Z" ∧
  ∃ info, getAssignmentInfo store_legacy_assignment (VRef 1) = Normal (Some info) ∧
          assignedAt info = MkDate (prop store_legacy_assignment (VRef 0) "assigned_at").
Proof.
  do 4 (split; [reflexivity |]).
  refine (getAssignmentInfo_returns_on_primitive store_legacy_assignment (VRef 1) (VRef 0)
            eq_refl (or_intror (conj eq_refl (conj eq_refl eq_refl))) _).
  intros l. vm_compute. discriminate.
Defined.

(** ** Records that are already in the store *)

Section frame.
Implicit Types (h : heap) (task v : value) (k : string).

Lemma live_lookup h l : live h (VRef l) = true → ∃ c, h !! l = Some c.
Proof.
  simpl. intros Hl%bool_decide_eq_true. by apply lookup_lt_is_Some in Hl as [c ?]; eauto.
Qed.

Lemma prop_prefix h h' v k :
  h `prefix_of` h' → live h v = true → prop h' v k = prop h v k.
Proof.
  intros Hp Hv. destruct v as [| | | | s | l]; try done.
  destruct (live_lookup _ _ Hv) as [c Hc]. unfold prop.
  by rewrite Hc, (prefix_lookup_Some _ _ _ _ Hc Hp).
Qed.

Lemma ownEnumerable_prefix h h' v :
  h `prefix_of` h' → live h v = true → ownEnumerable h' v = ownEnumerable h v.
Proof.
  intros Hp Hv. destruct v as [| | | | s | l]; try done.
  destruct (live_lookup _ _ Hv) as [c Hc]. unfold ownEnumerable.
  by rewrite Hc, (prefix_lookup_Some _ _ _ _ Hc Hp).
Qed.

Lemma fileIdValue_prefix h h' v :
  h `prefix_of` h' → live h v = true → live h (prop h v "source") = true →
  fileIdValue h' v = fileIdValue h v.
Proof.
  intros Hp Hv Hs. unfold fileIdValue. cbv zeta.
  rewrite !(prop_prefix h h' v) by done.
  by rewrite !(prop_prefix h h' (prop h v "source")) by done.
Qed.

Lemma trackingModeValue_prefix h h' v :
  h `prefix_of` h' → live h v = true → live h (prop h v "source") = true →
  trackingModeValue h' v = trackingModeValue h v.
Proof.
  intros Hp Hv Hs. unfold trackingModeValue.
  by rewrite (fileIdValue_prefix h h' v), !(prop_prefix h h' v) by done.
Qed.

Lemma normalizedProps_prefix h h' v :
  h `prefix_of` h' → live h v = true → live h (prop h v "source") = true →
  normalizedProps h' v = normalizedProps h v.
Proof.
  intros Hp Hv Hs. unfold normalizedProps, assignedValue.
  by rewrite (fileIdValue_prefix h h' v), (trackingModeValue_prefix h h' v),
    (ownEnumerable_prefix h h' v), !(prop_prefix h h' v) by done.
Qed.

Lemma normalizeTask_prefix h task r h' :
  normalizeTask h task = Normal (r, h') → h `prefix_of` h'.
Proof.
  intros Hn. destruct (normalizeTask_returns h task) as (r0 & h0 & Hr & Hp).
  rewrite Hr in Hn. by injection Hn as <- <-.
Qed.

(** X19: normalizing one task changes nothing for the records that are
    already there: for every live value whose [source] is live, each
    reading function returns after the call what it returned before. *)
Theorem normalizeTask_leaves_records h task r h' v :
  normalizeTask h task = Normal (r, h') →
  live h v = true →
  live h (prop h v "source") = true →
  getFileId h' v = getFileId h v ∧
  getTrackingMode h' v = getTrackingMode h v ∧
  isStandaloneTask h' v = isStandaloneTask h v ∧
  getAssignedTo h' v = getAssignedTo h v ∧
  getFileDisplayName h' v = getFileDisplayName h v.
Proof.
  intros Hn Hv Hs. apply normalizeTask_prefix in Hn.
  destruct (truthy v) eqn:Ht.
  - rewrite !getFileId_truthy, !getTrackingMode_truthy, !isStandaloneTask_truthy,
      !getAssignedTo_truthy, !getFileDisplayName_truthy by done.
    unfold assignedToValue.
    by rewrite (fileIdValue_prefix h h' v), (trackingModeValue_prefix h h' v),
      !(prop_prefix h h' v) by done.
  - unfold getTrackingMode, isStandaloneTask, getAssignedTo, getFileDisplayName.
    by rewrite !getFileId_falsy, Ht by done.
Qed.
End frame.

Lemma normalizeTask_leaves_records_witness :
  normalizeTask store_migrated (VRef 0)
    = Normal (VRef 2, store_migrated ++ [CObj (normalizedProps store_migrated (VRef 0))]) ∧
  live store_migrated (VRef 1) = true ∧
  live store_migrated (prop store_migrated (VRef 1) "source") = true ∧
  getFileId (store_migrated ++ [CObj (normalizedProps store_migrated (VRef 0))]) (VRef 1)
    = getFileId store_migrated (VRef 1).
Proof.
  do 3 (split; [vm_compute; reflexivity |]).
  exact (proj1 (normalizeTask_leaves_records store_migrated (VRef 0) (VRef 2)
                  (store_migrated ++ [CObj (normalizedProps store_migrated (VRef 0))])
                  (VRef 1) eq_refl eq_refl eq_refl)).
Defined.

(** ** The elements of a normalized array *)

Section elements.
Implicit Types (h : heap) (tasks t r : value) (ts rs : list value).

Lemma map_normalizeTask_cons h t ts rs h' :
  map_normalizeTask h (t :: ts) = Normal (rs, h') →
  ∃ r h1 rs1, normalizeTask h t = Normal (r, h1) ∧
              map_normalizeTask h1 ts = Normal (rs1, h') ∧ rs = r :: rs1.
Proof.
  cbn [map_normalizeTask].
  destruct (normalizeTask_returns h t) as (r & h1 & -> & _). cbn [mbind completion_bind].
  destruct (map_normalizeTask h1 ts) as [[rs1 h2] |] eqn:Hm;
    cbn [mbind completion_bind]; [| done].
  intros [= <- <-]. by exists r, h1, rs1.
Qed.

Lemma map_normalizeTask_prefix h ts rs h' :
  map_normalizeTask h ts = Normal (rs, h') → h `prefix_of` h'.
Proof.
  revert h rs. induction ts as [| t ts IH]; intros h rs Hm.
  - by injection Hm as <- <-.
  - apply map_normalizeTask_cons in Hm as (r & h1 & rs1 & Hr & Hm & ->).
    etrans; [by eapply normalizeTask_prefix | by eapply IH].
Qed.

Lemma map_normalizeTask_falsy h ts rs h' i t :
  map_normalizeTask h ts = Normal (rs, h') →
  ts !! i = Some t → truthy t = false → rs !! i = Some t.
Proof.
  revert h rs i. induction ts as [| t0 ts IH]; intros h rs i Hm Hi Ht; [done |].
  apply map_normalizeTask_cons in Hm as (r & h1 & rs1 & Hr & Hm & ->).
  destruct i as [| i].
  - injection Hi as ->. rewrite normalizeTask_falsy in Hr by done.
    by injection Hr as <- <-.
  - exact (IH h1 rs1 i Hm Hi Ht).
Qed.

(** A truthy element becomes a reference to an object allocated by the
    calls. *)
Lemma map_normalizeTask_truthy h ts rs h' i t :
  map_normalizeTask h ts = Normal (rs, h') →
  ts !! i = Some t → truthy t = true →
  ∃ l (m : gmap string value),
    rs !! i = Some (VRef l) ∧ (List.length h ≤ l)%nat ∧ h' !! l = Some (CObj m).
Proof.
  revert h rs i. induction ts as [| t0 ts IH]; intros h rs i Hm Hi Ht; [done |].
  apply map_normalizeTask_cons in Hm as (r & h1 & rs1 & Hr & Hm & ->).
  pose proof (map_normalizeTask_prefix _ _ _ _ Hm) as Hp.
  destruct i as [| i].
  - injection Hi as ->. rewrite normalizeTask_truthy in Hr by done.
    injection Hr as <- <-. eexists _, _. split; [done |]. split; [done |].
    eapply prefix_lookup_Some; [| done]. by rewrite lookup_app_r, Nat.sub_diag.
  - destruct (IH _ _ _ Hm Hi Ht) as (l & m & ? & ? & ?). exists l, m.
    split; [done |]. split; [| done].
    apply normalizeTask_prefix, prefix_length in Hr. lia.
Qed.

(** Later calls allocate at higher locations. *)
Lemma map_normalizeTask_increasing h ts rs h' i j ti tj li lj :
  map_normalizeTask h ts = Normal (rs, h') →
  (i < j)%nat →
  ts !! i = Some ti → truthy ti = true → rs !! i = Some (VRef li) →
  ts !! j = Some tj → truthy tj = true → rs !! j = Some (VRef lj) →
  (li < lj)%nat.
Proof.
  revert h rs i j. induction ts as [| t0 ts IH]; intros h rs i j Hm Hij Hi Hti Hri Hj Htj Hrj;
    [done |].
  apply map_normalizeTask_cons in Hm as (r & h1 & rs1 & Hr & Hm & ->).
  destruct j as [| j]; [lia |]. destruct i as [| i].
  - injection Hi as ->. rewrite normalizeTask_truthy in Hr by done.
    injection Hr as <- <-. injection Hri as <-.
    destruct (map_normalizeTask_truthy _ _ _ _ _ _ Hm Hj Htj) as (l & m & Hl & Hge & _).
    simpl in Hrj. rewrite Hl in Hrj. injection Hrj as <-.
    rewrite length_app in Hge. simpl in Hge. lia.
  - apply (IH h1 rs1 i j Hm); [lia | done..].
Qed.

(** With the elements and their [source]s live in [h0], the object built
    for a truthy element is the one [normalizeTask] builds in [h0]. *)
Lemma map_normalizeTask_contents h0 h ts rs h' i t :
  h0 `prefix_of` h →
  (∀ t, t ∈ ts → live h0 t = true ∧ live h0 (prop h0 t "source") = true) →
  map_normalizeTask h ts = Normal (rs, h') →
  ts !! i = Some t → truthy t = true →
  ∃ l, rs !! i = Some (VRef l) ∧ h' !! l = Some (CObj (normalizedProps h0 t)).
Proof.
  revert h rs i. induction ts as [| t0 ts IH]; intros h rs i Hp Hlive Hm Hi Ht; [done |].
  apply map_normalizeTask_cons in Hm as (r & h1 & rs1 & Hr & Hm & ->).
  pose proof (map_normalizeTask_prefix _ _ _ _ Hm) as Hp1.
  destruct i as [| i].
  - injection Hi as ->. rewrite normalizeTask_truthy in Hr by done.
    injection Hr as <- <-. exists (List.length h). split; [done |].
    destruct (Hlive t) as [Hl Hs]; [by left |].
    rewrite <- (normalizedProps_prefix h0 h t) by done.
    eapply prefix_lookup_Some; [| done]. by rewrite lookup_app_r, Nat.sub_diag.
  - apply (IH h1 rs1 i); [| | done..].
    + etrans; [done | by eapply normalizeTask_prefix].
    + intros t' Ht'. apply Hlive. by right.
Qed.
End elements.

Section normalized_array.
Implicit Types (h : heap) (tasks t r : value) (ts rs : list value).

Lemma normalizeTasks_array h tasks ts :
  isArray h tasks = Some ts →
  ∃ rs h1, map_normalizeTask h ts = Normal (rs, h1) ∧
           normalizeTasks h tasks = Normal (VRef (List.length h1), h1 ++ [CArr rs]).
Proof.
  intros Ha. destruct (map_normalizeTask_returns h ts) as (rs & h1 & _ & Hm & _).
  exists rs, h1. split; [done |]. unfold normalizeTasks. by rewrite Ha, Hm.
Qed.

(** X20: [normalizeTasks] keeps the falsy elements of the array as they
    are and in place, and puts for every truthy element a reference to an
    object that was not in the store before and is not the returned
    array. *)
Theorem normalizeTasks_elements h tasks ts :
  isArray h tasks = Some ts →
  ∃ l' rs h',
    normalizeTasks h tasks = Normal (VRef l', h') ∧
    h' !! l' = Some (CArr rs) ∧
    (∀ i t, ts !! i = Some t → truthy t = false → rs !! i = Some t) ∧
    (∀ i t, ts !! i = Some t → truthy t = true →
       ∃ l (m : gmap string value),
         rs !! i = Some (VRef l) ∧ h !! l = None ∧
         h' !! l = Some (CObj m) ∧ l ≠ l').
Proof.
  intros Ha. destruct (normalizeTasks_array h tasks ts Ha) as (rs & h1 & Hm & Hn).
  eexists _, rs, _. split; [exact Hn |].
  split; [by rewrite lookup_app_r, Nat.sub_diag |].
  split.
  - intros i t Hi Ht. by eapply map_normalizeTask_falsy.
  - intros i t Hi Ht.
    destruct (map_normalizeTask_truthy _ _ _ _ _ _ Hm Hi Ht) as (l & m & Hr & Hge & Hl).
    pose proof (lookup_lt_Some _ _ _ Hl) as Hlt.
    exists l, m. split; [done |]. split; [by apply lookup_ge_None |].
    split; [by rewrite lookup_app_l | lia].
Qed.

(** X21: the objects [normalizeTasks] puts for two truthy elements at
    different positions are different objects, also when the two
    elements are one and the same record. *)
Theorem normalizeTasks_distinct h tasks ts :
  isArray h tasks = Some ts →
  ∃ l' rs h',
    normalizeTasks h tasks = Normal (VRef l', h') ∧
    h' !! l' = Some (CArr rs) ∧
    (∀ i j ti tj ri rj,
       i ≠ j →
       ts !! i = Some ti → truthy ti = true → rs !! i = Some ri →
       ts !! j = Some tj → truthy tj = true → rs !! j = Some rj →
       ri ≠ rj).
Proof.
  intros Ha. destruct (normalizeTasks_array h tasks ts Ha) as (rs & h1 & Hm & Hn).
  eexists _, rs, _. split; [exact Hn |].
  split; [by rewrite lookup_app_r, Nat.sub_diag |].
  intros i j ti tj ri rj Hij Hi Hti Hri Hj Htj Hrj.
  destruct (map_normalizeTask_truthy _ _ _ _ _ _ Hm Hi Hti) as (li & mi & Hli & _).
  destruct (map_normalizeTask_truthy _ _ _ _ _ _ Hm Hj Htj) as (lj & mj & Hlj & _).
  rewrite Hli in Hri. rewrite Hlj in Hrj. injection Hri as <-. injection Hrj as <-.
  intros [= Heq]. destruct (Nat.lt_total i j) as [Hlt | [? | Hlt]]; [| done |].
  - pose proof (map_normalizeTask_increasing _ _ _ _ _ _ _ _ _ _ Hm Hlt
                  Hi Hti Hli Hj Htj Hlj). lia.
  - pose proof (map_normalizeTask_increasing _ _ _ _ _ _ _ _ _ _ Hm Hlt
                  Hj Htj Hlj Hi Hti Hli). lia.
Qed.

(** X22: when the elements of the array and their [source]s are live,
    every element of the result has the own properties of what
    [normalizeTask] returns for that element of the array on its own:
    the earlier calls do not change what a later call builds. *)
Theorem normalizeTasks_element_content h tasks ts :
  isArray h tasks = Some ts →
  (∀ t, t ∈ ts → live h t = true ∧ live h (prop h t "source") = true) →
  ∃ l' rs h',
    normalizeTasks h tasks = Normal (VRef l', h') ∧
    h' !! l' = Some (CArr rs) ∧
    (∀ i t, ts !! i = Some t →
       ∃ r r0 h0,
         rs !! i = Some r ∧
         normalizeTask h t = Normal (r0, h0) ∧
         ownEnumerable h' r = ownEnumerable h0 r0).
Proof.
  intros Ha Hlive.
  destruct (normalizeTasks_array h tasks ts Ha) as (rs & h1 & Hm & Hn).
  pose proof (map_normalizeTask_prefix _ _ _ _ Hm) as Hp.
  eexists _, rs, _. split; [exact Hn |].
  split; [by rewrite lookup_app_r, Nat.sub_diag |].
  intros i t Hi. destruct (truthy t) eqn:Ht.
  - destruct (map_normalizeTask_contents h h ts rs h1 i t) as (l & Hr & Hl); try done.
    eexists _, _, _. split; [exact Hr |].
    split; [by apply normalizeTask_truthy |].
    rewrite normalized_ownEnumerable. unfold ownEnumerable.
    by rewrite lookup_app_l, Hl by by eapply lookup_lt_Some.
  - exists t, t, h. split; [by eapply map_normalizeTask_falsy |].
    split; [by apply normalizeTask_falsy |].
    apply ownEnumerable_prefix; [by apply prefix_app_r |].
    apply Hlive. by eapply list_elem_of_lookup_2.
Qed.
End normalized_array.

Lemma normalizeTasks_elements_witness :
  isArray store_array (VRef 3) = Some [VRef 0; VNull; VRef 0] ∧
  ∃ l' rs h',
    normalizeTasks store_array (VRef 3) = Normal (VRef l', h') ∧
    h' !! l' = Some (CArr rs) ∧
    rs !! 1%nat = Some VNull ∧
    ∃ l (m : gmap string value),
      rs !! 0%nat = Some (VRef l) ∧ store_array !! l = None ∧
      h' !! l = Some (CObj m) ∧ l ≠ l'.
Proof.
  split; [reflexivity |].
  destruct (normalizeTasks_elements store_array (VRef 3) _ eq_refl)
    as (l' & rs & h' & Hn & Hl' & Hfalsy & Htruthy).
  exists l', rs, h'. split; [exact Hn |]. split; [exact Hl' |].
  split; [exact (Hfalsy 1%nat VNull eq_refl eq_refl) |].
  exact (Htruthy 0%nat (VRef 0) eq_refl eq_refl).
Defined.

Lemma normalizeTasks_distinct_witness :
  isArray store_array (VRef 3) = Some [VRef 0; VNull; VRef 0] ∧
  ∃ l' rs h',
    normalizeTasks store_array (VRef 3) = Normal (VRef l', h') ∧
    h' !! l' = Some (CArr rs) ∧
    ∀ ri rj, rs !! 0%nat = Some ri → rs !! 2%nat = Some rj → ri ≠ rj.
Proof.
  split; [reflexivity |].
  destruct (normalizeTasks_distinct store_array (VRef 3) _ eq_refl)
    as (l' & rs & h' & Hn & Hl' & Hd).
  exists l', rs, h'. split; [exact Hn |]. split; [exact Hl' |].
  intros ri rj Hi Hj.
  refine (Hd 0%nat 2%nat (VRef 0) (VRef 0) ri rj _ eq_refl eq_refl Hi eq_refl eq_refl Hj).
  discriminate.
Defined.

Lemma normalizeTasks_element_content_witness :
  isArray store_array (VRef 3) = Some [VRef 0; VNull; VRef 0] ∧
  (∀ t, t ∈ [VRef 0; VNull; VRef 0] →
        live store_array t = true ∧
        live store_array (prop store_array t "source") = true) ∧
  ∃ l' rs h',
    normalizeTasks store_array (VRef 3) = Normal (VRef l', h') ∧
    h' !! l' = Some (CArr rs) ∧
    ∃ r r0 h0,
      rs !! 2%nat = Some r ∧
      normalizeTask store_array (VRef 0) = Normal (r0, h0) ∧
      ownEnumerable h' r = ownEnumerable h0 r0.
Proof.
  assert (Hlive : ∀ t, t ∈ [VRef 0; VNull; VRef 0] →
            live store_array t = true ∧
            live store_array (prop store_array t "source") = true).
  { intros t Ht. repeat (apply elem_of_cons in Ht as [-> | Ht]; [by vm_compute |]).
    by apply elem_of_nil in Ht. }
  split; [reflexivity |]. split; [exact Hlive |].
  destruct (normalizeTasks_element_content store_array (VRef 3) _ eq_refl Hlive)
    as (l' & rs & h' & Hn & Hl' & Hc).
  exists l', rs, h'. split; [exact Hn |]. split; [exact Hl' |].
  exact (Hc 2%nat (VRef 0) eq_refl).
Defined.

Lemma absent_defaults_witness :
  truthy (VStr "") = false ∧
  getFileId [] (VStr "") = Normal VNull ∧
  isStandaloneTask [] (VStr "") = Normal false ∧
  getTrackingMode [] (VStr "") = Normal (VStr "STANDALONE") ∧
  normalizeTask [] (VStr "") = Normal (VStr "", []) ∧
  getFileDisplayName [] (VStr "") = Normal (VStr "Standalone Task") ∧
  getAssignmentInfo [] (VStr "") = Normal None ∧
  getAssignedTo [] (VStr "") = Normal VNull.
Proof.
  split; [reflexivity |].
  exact (absent_defaults [] (VStr "") eq_refl).
Defined.

(** ** Arguments of the wrong type *)

(** X25: for a truthy boolean or number, which has no properties to
    copy, [normalizeTask] builds an object with the three overlay
    properties only: [file_id] is [null], [tracking_mode] is
    ['STANDALONE'] and [assigned_to] is [undefined]. *)
Theorem normalizeTask_primitive h v :
  truthy v = true →
  (∃ b, v = VBool b) ∨ (∃ n, v = VNum n) →
  normalizeTask h v =
    Normal (VRef (List.length h),
            h ++ [CObj (<["assigned_to" := VUndefined]>
                       (<["tracking_mode" := VStr "STANDALONE"]>
                       (<["file_id" := VNull]> ∅)))]).
Proof.
  intros Hv Hp. rewrite normalizeTask_truthy by done.
  by destruct Hp as [[b ->] | [n ->]].
Qed.

Lemma normalizeTask_primitive_witness :
  truthy (VNum (Num 5)) = true ∧
  normalizeTask [] (VNum (Num 5)) =
    Normal (VRef 0,
            [CObj (<["assigned_to" := VUndefined]>
                  (<["tracking_mode" := VStr "STANDALONE"]>
                  (<["file_id" := VNull]> ∅)))]).
Proof.
  split; [reflexivity |].
  exact (normalizeTask_primitive [] (VNum (Num 5)) eq_refl
           (or_intror (ex_intro _ (Num 5) eq_refl))).
Defined.
